(** * VisualPIC: folder scanning and particle-species data access

    A shallow embedding of

    - [VisualPIC/DataReading/folder_scanners.py] (class [OsirisFolderScanner]),
    - [visualpic/data_handling/particle_species.py] (class [ParticleSpecies]),

    together with the properties of these two modules that the design
    document of the project states.

    Conventions of the embedding.

    - Python [str] values are [string]s.  Only ASCII text is modelled: a
      character is one byte, so slices and [int()] agree with Python on
      ASCII names.
    - A raised exception is a value of [exn]; a [str.format] message is kept
      as the list of its literal pieces and formatted arguments.
    - Python dictionaries are [gmap]s.  The Python lists that live in an
      object attribute and the metadata dictionaries of the particle data
      are cells of a store and are named by references, so that in-place
      mutation and aliasing are visible.
    - The collaborators that are not part of these modules (the particle
      reader, the unit converter, the recipes of the table of derived
      quantities, [numpy.argsort]) are section variables.  The reader, the
      converter and the recipes may raise, and may create and change
      metadata dictionaries; every call of them is logged with what came
      back. *)

From Stdlib Require Import ZArith String Ascii List Lia.
From Stdlib Require Import Sorting.Sorted Sorting.Permutation Sorting.Mergesort.
From Stdlib Require Import Orders.
From stdpp Require Import base option list gmap strings sorting.

Local Open Scope string_scope.
Local Open Scope Z_scope.

(** ** Exceptions *)

(** One piece of a message built with [str.format] and [+]. *)
Inductive fmt_piece : Type :=
| Text (s : string)            (* literal text of the template *)
| ArgInt (n : Z)               (* '{}'.format(n) for an int *)
| ArgStr (s : string)          (* '{}'.format(s) for a str *)
| ArgRepr (s : string)         (* repr of a str *)
| ArgList (l : list string).   (* '{}'.format(l) for a list of str *)

Inductive exn : Type :=
| ValueError (msg : list fmt_piece)
| IndexError
| KeyError (key : string)
| AttributeError (attr : string)
| TypeError
| NotADirectoryError (path : string)
| UnknownDerivedQuantityError (name : string).

Inductive result (A : Type) : Type :=
| Ok (a : A)
| Raise (e : exn).
Arguments Ok {A} a.
Arguments Raise {A} e.

Definition result_bind {A B} (r : result A) (k : A -> result B) : result B :=
  match r with
  | Ok a => k a
  | Raise e => Raise e
  end.

(** ** Python string operations *)

Module PyStr.

(** [s.endswith(suffix)] *)
Definition endswith (s suffix : string) : bool :=
  let n := String.length s in
  let m := String.length suffix in
  (m <=? n)%nat && String.eqb (substring (n - m) m s) suffix.

(** [s.startswith(p)] *)
Definition startswith (s p : string) : bool := String.prefix p s.

(** [s[-a:-b]] for positive [a] and [b]: both bounds are counted from the
    end and clamped at the start of the string. *)
Definition slice_from_end (a b : nat) (s : string) : string :=
  let n := String.length s in
  let start := (n - a)%nat in
  let stop := (n - b)%nat in
  substring start (stop - start) s.

(** [s.replace(old, new)] for a non-empty [old]: the occurrences are found
    from left to right and do not overlap.  [skip] counts the characters of
    a matched occurrence that are still to be dropped. *)
Fixpoint replace_go (old new : string) (skip : nat) (s : string) : string :=
  match s with
  | EmptyString => EmptyString
  | String c s' =>
      match skip with
      | S k => replace_go old new k s'
      | O =>
          if String.prefix old s
          then new ++ replace_go old new (String.length old - 1) s'
          else String c (replace_go old new 0 s')
      end
  end.

Definition replace (old new s : string) : string := replace_go old new 0 s.

(** The ASCII characters that [int()] skips around the number: tab, line
    feed, vertical tab, form feed, carriage return and space. *)
Definition is_space (c : ascii) : bool :=
  let n := nat_of_ascii c in
  ((9 <=? n) && (n <=? 13) || (n =? 32))%nat.

Definition is_digit (c : ascii) : bool :=
  let n := nat_of_ascii c in ((48 <=? n) && (n <=? 57))%nat.

Definition digit_val (c : ascii) : Z := Z.of_nat (nat_of_ascii c - 48).

Fixpoint lstrip (s : list ascii) : list ascii :=
  match s with
  | c :: s' => if is_space c then lstrip s' else s
  | [] => []
  end.

Definition strip (s : list ascii) : list ascii :=
  rev (lstrip (rev (lstrip s))).

(** The digits of a base-10 literal: at least one digit, and single
    underscores allowed between two digits. *)
Fixpoint int_digits (acc : Z) (after_digit : bool) (s : list ascii)
  : option Z :=
  match s with
  | [] => if after_digit then Some acc else None
  | c :: s' =>
      if is_digit c then int_digits (10 * acc + digit_val c) true s'
      else if Ascii.eqb c "_" then
             if after_digit then int_digits acc false s' else None
           else None
  end.

(** [int(s)] for an ASCII [str]; [None] is the [ValueError]. *)
Definition int (s : string) : option Z :=
  match strip (list_ascii_of_string s) with
  | c :: s' =>
      if Ascii.eqb c "-" then Z.opp <$> int_digits 0 false s'
      else if Ascii.eqb c "+" then int_digits 0 false s'
      else int_digits 0 false (c :: s')
  | [] => None
  end.

(** [os.path.join(a, b)] on a POSIX system. *)
Definition path_join (a b : string) : string :=
  if startswith b "/" then b
  else if String.eqb a "" || endswith a "/" then a ++ b
  else a ++ "/" ++ b.

End PyStr.

Example endswith_h5 : PyStr.endswith "field_000100.h5" ".h5" = true.
Proof. reflexivity. Qed.
Example endswith_short : PyStr.endswith "h5" ".h5" = false.
Proof. reflexivity. Qed.
Example slice_token : PyStr.slice_from_end 9 3 "field_000100.h5" = "000100".
Proof. reflexivity. Qed.
Example slice_short : PyStr.slice_from_end 9 3 "12.h5" = "12".
Proof. reflexivity. Qed.
Example replace_twice : PyStr.replace "-savg" "" "e1-savg-savg" = "e1".
Proof. reflexivity. Qed.
Example replace_nested : PyStr.replace "-savg" "" "-sa-savgvg" = "-savg".
Proof. reflexivity. Qed.
Example int_token : PyStr.int "000100" = Some 100.
Proof. reflexivity. Qed.
Example int_signed : PyStr.int " -1_0 " = Some (-10).
Proof. reflexivity. Qed.
Example int_bad : PyStr.int "/e1/12" = None.
Proof. reflexivity. Qed.
Example int_separator : PyStr.int (String (ascii_of_nat 28) "00012") = None.
Proof. reflexivity. Qed.
Example int_tab : PyStr.int (String (ascii_of_nat 9) "00012") = Some 12.
Proof. reflexivity. Qed.
Example join_plain : PyStr.path_join "FLD/e1" "12.h5" = "FLD/e1/12.h5".
Proof. reflexivity. Qed.

(** ** The OSIRIS folder scanner *)

Module OsirisFolderScanner.

(** The part of the file system that the scanner looks at: a folder is the
    list of its entries in the order [os.listdir] returns them. *)
#[local] Set Warnings "-register-all".
Inductive entry : Type :=
| File
| Folder (children : list (string * entry)).
#[local] Set Warnings "+register-all".

(** [FolderField(field_name, field_path, fld_files, time_steps, reader,
    'uc', species_name)]; the reader object carries no data. *)
Record FolderField : Type := mkFolderField {
  field_name : string;
  field_path : string;
  fld_files : list string;
  time_steps : list Z;
  unit_converter : string;
  species_name : string
}.

(** [os.listdir(path)], where [e] is what [path] names. *)
Definition listdir (path : string) (e : entry)
  : result (list (string * entry)) :=
  match e with
  | Folder children => Ok children
  | File => Raise (NotADirectoryError path)
  end.

(** [os.path.isdir(path)] *)
Definition isdir (e : entry) : bool :=
  match e with
  | Folder _ => true
  | File => false
  end.

Definition name_relations : list (string * string) :=
  [("e1", "Ez"); ("e2", "Ex"); ("e3", "Ey");
   ("b1", "Bz"); ("b2", "Bx"); ("b3", "By");
   ("charge", "rho")].

(** Lookup in a dict literal given by its items (the keys are distinct). *)
Fixpoint dict_get (d : list (string * string)) (k : string) : option string :=
  match d with
  | [] => None
  | (k', v) :: d' => if String.eqb k k' then Some v else dict_get d' k
  end.

Definition _get_standard_visualpic_name (osiris_name : string)
  : result string :=
  match dict_get name_relations osiris_name with
  | Some v => Ok v
  | None =>
      Raise (ValueError [Text "Unknown data name "; ArgStr osiris_name;
                         Text "."])
  end.

Definition _get_osiris_field_name (field_folder_name : string) : string :=
  PyStr.replace "-savg" "" field_folder_name.

Definition _get_field_path (field_folder_name : string) : string :=
  "/" ++ _get_osiris_field_name field_folder_name.

(** [int(file[-9:-3])] *)
Definition parse_time_step (file : string) : result Z :=
  let token := PyStr.slice_from_end 9 3 file in
  match PyStr.int token with
  | Some n => Ok n
  | None =>
      Raise (ValueError [Text "invalid literal for int() with base 10: ";
                         ArgRepr token])
  end.

(** The loop that fills [time_steps]: it stops at the first file whose
    token does not parse. *)
Fixpoint parse_time_steps (h5_files : list string) : result (list Z) :=
  match h5_files with
  | [] => Ok []
  | file :: rest =>
      result_bind (parse_time_step file) (fun t =>
      result_bind (parse_time_steps rest) (fun ts => Ok (t :: ts)))
  end.

(** [a[idx]] for a numpy array [a] and an array [idx] of indices. *)
Fixpoint take_indices {A} (a : list A) (idx : list nat) : result (list A) :=
  match idx with
  | [] => Ok []
  | i :: idx' =>
      match a !! i with
      | Some x => result_bind (take_indices a idx') (fun xs => Ok (x :: xs))
      | None => Raise IndexError
      end
  end.

(** The files of a folder whose name ends in [".h5"], as joined paths. *)
Definition select_h5 (field_folder_path : string) (all_files : list string)
  : list string :=
  map (PyStr.path_join field_folder_path)
      (List.filter (fun file => PyStr.endswith file ".h5") all_files).

Section Scan.

(** [numpy.argsort] with its default [kind]; time steps are stored in a
    float array, which holds the six-digit tokens exactly. *)
Variable argsort : list Z -> list nat.

Definition _get_files_and_timesteps (field_folder_path : string)
    (folder : entry) : result (list string * list Z) :=
  result_bind (listdir field_folder_path folder) (fun all_files =>
  let h5_files := select_h5 field_folder_path (map fst all_files) in
  result_bind (parse_time_steps h5_files) (fun time_steps =>
  let sort_i := argsort time_steps in
  result_bind (take_indices time_steps sort_i) (fun time_steps' =>
  result_bind (take_indices h5_files sort_i) (fun h5_files' =>
  Ok (h5_files', time_steps'))))).

Definition _create_field (field_name : string) (field_folder : string)
    (folder : entry) (species_name : string) : result FolderField :=
  let field_path := _get_field_path field_name in
  let osiris_field_name := _get_osiris_field_name field_name in
  result_bind (_get_standard_visualpic_name osiris_field_name)
    (fun field_name =>
  result_bind (_get_files_and_timesteps field_folder folder)
    (fun '(fld_files, time_steps) =>
  Ok (mkFolderField field_name field_path fld_files time_steps "uc"
        species_name))).

(** [for field in fields: if isdir(field_folder): field_list.append(...)] *)
Fixpoint scan_field_folders (dir : string) (fields : list (string * entry))
    (species : string) (field_list : list FolderField)
  : result (list FolderField) :=
  match fields with
  | [] => Ok field_list
  | (field, e) :: rest =>
      let field_folder := PyStr.path_join dir field in
      if isdir e then
        result_bind (_create_field field field_folder e species) (fun f =>
        scan_field_folders dir rest species (field_list ++ [f]))
      else scan_field_folders dir rest species field_list
  end.

(** [for species in available_species: if isdir(species_folder): ...] *)
Fixpoint scan_species (subdir : string) (available : list (string * entry))
    (field_list : list FolderField) : result (list FolderField) :=
  match available with
  | [] => Ok field_list
  | (species, e) :: rest =>
      let species_folder := PyStr.path_join subdir species in
      if isdir e then
        result_bind (listdir species_folder e) (fun species_fields =>
        result_bind
          (scan_field_folders species_folder species_fields species
             field_list)
          (fun field_list' => scan_species subdir rest field_list'))
      else scan_species subdir rest field_list
  end.

(** The outer loop of [get_list_of_fields].  An entry named "DENSITY" or
    "FLD" is listed without a directory test. *)
Fixpoint scan_top (folder_path : string) (folders : list (string * entry))
    (field_list : list FolderField) : result (list FolderField) :=
  match folders with
  | [] => Ok field_list
  | (folder, e) :: rest =>
      let subdir := PyStr.path_join folder_path folder in
      result_bind
        (if String.eqb folder "DENSITY" then
           result_bind (listdir subdir e) (fun available_species =>
           scan_species subdir available_species field_list)
         else Ok field_list)
        (fun field_list1 =>
      result_bind
        (if String.eqb folder "FLD" then
           result_bind (listdir subdir e) (fun domain_fields =>
           scan_field_folders subdir domain_fields "" field_list1)
         else Ok field_list1)
        (fun field_list2 => scan_top folder_path rest field_list2))
  end.

Definition get_list_of_fields (folder_path : string) (root : entry)
  : result (list FolderField) :=
  result_bind (listdir folder_path root) (fun folders_in_path =>
  scan_top folder_path folders_in_path []).

End Scan.

End OsirisFolderScanner.

(** ** Facts about [str.replace] *)

Module PyStrFacts.
Import PyStr.

(** [s[n:]] *)
Fixpoint drop_chars (n : nat) (s : string) : string :=
  match n, s with
  | O, _ => s
  | S k, String _ s' => drop_chars k s'
  | S _, EmptyString => EmptyString
  end.

Lemma drop_chars_empty n : drop_chars n "" = "".
Proof. by destruct n. Qed.

Lemma replace_go_skip old new k s :
  replace_go old new k s = replace_go old new 0 (drop_chars k s).
Proof.
  revert k. induction s as [|c s IH]; intros k.
  - by rewrite drop_chars_empty.
  - destruct k as [|k]; [done|]. simpl. apply IH.
Qed.

Lemma app_cons c (a b : string) : String c a ++ b = String c (a ++ b).
Proof. reflexivity. Qed.

Lemma app_empty_l (s : string) : "" ++ s = s.
Proof. reflexivity. Qed.

Lemma prefix_split old s :
  String.prefix old s = true -> s = old ++ drop_chars (String.length old) s.
Proof.
  revert s. induction old as [|a old IH]; intros s H; [done|].
  destruct s as [|b s]; [done|]. simpl in H.
  destruct (ascii_dec a b) as [->|]; [|done].
  rewrite app_cons. simpl. f_equal. by apply IH.
Qed.

Lemma prefix_app old s : String.prefix old (old ++ s) = true.
Proof.
  induction old as [|a old IH]; [by destruct s|].
  rewrite app_cons. simpl. by destruct (ascii_dec a a).
Qed.

Lemma drop_chars_app old s : drop_chars (String.length old) (old ++ s) = s.
Proof. induction old as [|a old IH]; [done | rewrite app_cons; apply IH]. Qed.

(** The scan of [replace]: nothing is left of an empty string, ... *)
Lemma replace_empty old new : replace old new "" = "".
Proof. reflexivity. Qed.

(** ... an occurrence at the front is replaced and the scan resumes behind
    it, ... *)
Lemma replace_match old new s :
  old <> "" ->
  replace old new (old ++ s) = new ++ replace old new s.
Proof.
  intros Hold. destruct old as [|a old]; [done|].
  unfold replace. rewrite app_cons. cbn [replace_go].
  rewrite <- app_cons, prefix_app, replace_go_skip. f_equal.
  simpl. rewrite Nat.sub_0_r. by rewrite drop_chars_app.
Qed.

(** ... and a character that starts no occurrence is copied. *)
Lemma replace_step old new c s :
  String.prefix old (String c s) = false ->
  replace old new (String c s) = String c (replace old new s).
Proof. intros H. unfold replace. cbn [replace_go]. by rewrite H. Qed.

Lemma app_empty_r (s : string) : s ++ "" = s.
Proof. induction s as [|c s IH]; [done | by rewrite app_cons, IH]. Qed.

Lemma app_assoc (a b c : string) : (a ++ b) ++ c = a ++ (b ++ c).
Proof. induction a as [|x a IH]; [done | by rewrite !app_cons, IH]. Qed.

Lemma length_app (a b : string) :
  String.length (a ++ b) = (String.length a + String.length b)%nat.
Proof. induction a as [|x a IH]; [done | rewrite app_cons; simpl; by rewrite IH]. Qed.

(** A string without an occurrence of [old] is left as it is. *)
Lemma replace_no_occurrence old new s :
  old <> "" ->
  (forall a b, s <> a ++ old ++ b) ->
  replace old new s = s.
Proof.
  intros Hold. induction s as [|c s IH]; intros Hno; [done|].
  destruct (String.prefix old (String c s)) eqn:Hp.
  - apply prefix_split in Hp. exfalso.
    by apply (Hno "" (drop_chars (String.length old) (String c s))).
  - rewrite replace_step by done. f_equal. apply IH.
    intros a b ->. by apply (Hno (String c a) b).
Qed.

(** No occurrence of ["-savg"] can start inside [a] and end inside a
    following ["-savg"]: the marker has no proper suffix that is also one of
    its prefixes. *)
Lemma savg_no_straddle c a b :
  String.prefix "-savg" (String c a) = false ->
  String.prefix "-savg" (String c a ++ "-savg" ++ b) = false.
Proof.
  intros H.
  destruct a as [|c2 [|c3 [|c4 [|c5 a]]]];
    rewrite ?app_cons, ?app_empty_l; cbn [String.prefix] in *;
    repeat match goal with
      | |- context [ascii_dec ?x ?y] => destruct (ascii_dec x y); subst
      | H : context [ascii_dec ?x ?y] |- _ => destruct (ascii_dec x y); subst
      end; try congruence.
  by destruct a.
Qed.

(** Removing ["-savg"] removes every occurrence: the text on both sides of
    an occurrence is processed independently. *)
Lemma replace_savg_app a b :
  replace "-savg" "" (a ++ "-savg" ++ b)
  = replace "-savg" "" a ++ replace "-savg" "" b.
Proof.
  remember (String.length a) as n eqn:Hn. revert a Hn.
  induction n as [n IH] using lt_wf_ind. intros a ->.
  destruct a as [|c a].
  - by rewrite app_empty_l, replace_match.
  - destruct (String.prefix "-savg" (String c a)) eqn:Hp.
    + apply prefix_split in Hp. rewrite Hp.
      set (a' := drop_chars _ _).
      rewrite app_assoc, !replace_match, !app_empty_l by done.
      apply (IH (String.length a')); [|done].
      rewrite Hp, length_app. fold a'. simpl. lia.
    + rewrite replace_step by done.
      pose proof (savg_no_straddle _ _ b Hp) as Hq.
      rewrite (app_cons c a) in Hq |- *. rewrite replace_step by done.
      rewrite (app_cons c). f_equal.
      apply (IH (String.length a)); [simpl; lia | done].
Qed.

End PyStrFacts.

(** ** Properties of the folder scanner *)

Module ScannerProps.
Import PyStr PyStrFacts OsirisFolderScanner.

(** *** What [numpy.argsort] promises

    With the default [kind] the result is an array of indices that sorts the
    input; the order of indices of equal values is not part of the
    promise. *)

Definition value_at (a : list Z) (i : nat) : Z := nth i a 0.

Definition argsort_ok (a : list Z) (idx : list nat) : Prop :=
  Permutation idx (seq 0 (length a)) /\ Sorted Z.le (map (value_at a) idx).

(** Two index sorts by insertion.  [before x y] decides whether a new index
    with value [x] goes in front of an index with value [y]. *)
Fixpoint insert_index (before : Z -> Z -> bool) (a : list Z) (i : nat)
    (idx : list nat) : list nat :=
  match idx with
  | [] => [i]
  | j :: idx' =>
      if before (value_at a i) (value_at a j) then i :: idx
      else j :: insert_index before a i idx'
  end.

Definition insertion_argsort (before : Z -> Z -> bool) (a : list Z)
  : list nat :=
  foldr (insert_index before a) [] (seq 0 (length a)).

(** Equal values keep their order ... *)
Definition stable_argsort : list Z -> list nat := insertion_argsort Z.leb.
(** ... or come out in the opposite order. *)
Definition reversing_argsort : list Z -> list nat := insertion_argsort Z.ltb.

Example stable_argsort_ties : stable_argsort [100; 100] = [0; 1]%nat.
Proof. reflexivity. Qed.
Example reversing_argsort_ties : reversing_argsort [100; 100] = [1; 0]%nat.
Proof. reflexivity. Qed.
Example reversing_argsort_sorts :
  reversing_argsort [100; 50; 200] = [1; 0; 2]%nat.
Proof. reflexivity. Qed.

Section InsertionArgsort.

Variable before : Z -> Z -> bool.
Hypothesis before_true : forall x y, before x y = true -> x <= y.
Hypothesis before_false : forall x y, before x y = false -> y <= x.

Lemma insert_index_perm a i idx :
  Permutation (insert_index before a i idx) (i :: idx).
Proof.
  induction idx as [|j idx IH]; simpl; [done|].
  destruct (before _ _); [done|].
  rewrite IH. apply perm_swap.
Qed.

Lemma insert_index_sorted a i idx :
  Sorted Z.le (map (value_at a) idx) ->
  Sorted Z.le (map (value_at a) (insert_index before a i idx)).
Proof.
  induction idx as [|j idx IH]; simpl; intros Hs.
  - by repeat constructor.
  - destruct (before _ _) eqn:Hb; simpl.
    + constructor; [done|]. constructor. by apply before_true.
    + apply Sorted_inv in Hs as [Hs Hhd].
      constructor; [by apply IH|].
      destruct idx as [|k idx]; simpl.
      * constructor. by apply before_false.
      * destruct (before _ (value_at a k)) eqn:Hk; simpl; constructor.
        -- by apply before_false.
        -- by apply HdRel_inv in Hhd.
Qed.

Lemma insertion_argsort_ok a : argsort_ok a (insertion_argsort before a).
Proof.
  unfold argsort_ok, insertion_argsort.
  generalize (seq 0 (length a)) as l.
  induction l as [|i l [IHp IHs]]; simpl.
  - split; [done | constructor].
  - split.
    + rewrite insert_index_perm. by constructor.
    + by apply insert_index_sorted.
Qed.

End InsertionArgsort.

Lemma stable_argsort_ok a : argsort_ok a (stable_argsort a).
Proof. apply insertion_argsort_ok; intros x y H; lia. Qed.

Lemma reversing_argsort_ok a : argsort_ok a (reversing_argsort a).
Proof. apply insertion_argsort_ok; intros x y H; lia. Qed.

(** *** Indexing with an index array *)

Lemma take_indices_map {A} (a : list A) (idx : list nat) (d : A) :
  Forall (fun i => (i < length a)%nat) idx ->
  take_indices a idx = Ok (map (fun i => nth i a d) idx).
Proof.
  induction 1 as [|i idx Hi _ IH]; simpl; [done|].
  apply lookup_lt_is_Some in Hi as [x Hx]. rewrite Hx, IH. simpl.
  do 2 f_equal. by rewrite nth_lookup, Hx.
Qed.

Lemma map_nth_seq {A} (l : list A) (d : A) :
  map (fun i => nth i l d) (seq 0 (length l)) = l.
Proof.
  apply (nth_ext _ _ d d).
  - by rewrite length_map, length_seq.
  - intros n Hn. rewrite length_map, length_seq in Hn.
    rewrite (nth_indep _ d (nth 0 l d)) by (by rewrite length_map, length_seq).
    rewrite (map_nth (fun i => nth i l d) (seq 0 (length l)) 0%nat n).
    by rewrite seq_nth.
Qed.

Lemma perm_seq_in_range (idx : list nat) (n : nat) :
  Permutation idx (seq 0 n) -> Forall (fun i => (i < n)%nat) idx.
Proof.
  intros Hp. apply List.Forall_forall. intros i Hi.
  apply (Permutation_in _ Hp), in_seq in Hi. lia.
Qed.

(** Taking a permutation of all indices permutes the array. *)
Lemma take_indices_perm {A} (a : list A) (idx : list nat) :
  Permutation idx (seq 0 (length a)) ->
  exists xs, take_indices a idx = Ok xs /\ Permutation xs a.
Proof.
  intros Hp. destruct a as [|d a].
  - symmetry in Hp. apply Permutation_nil in Hp as ->. by exists [].
  - exists (map (fun i => nth i (d :: a) d) idx). split.
    + apply take_indices_map. by apply perm_seq_in_range.
    + etransitivity; [apply Permutation_map, Hp|].
      by rewrite (map_nth_seq (d :: a) d).
Qed.



(** *** Parsing the time steps *)

Lemma parse_time_steps_ok h5_files ts :
  parse_time_steps h5_files = Ok ts ->
  Forall2 (fun file t => PyStr.int (slice_from_end 9 3 file) = Some t)
    h5_files ts.
Proof.
  revert ts. induction h5_files as [|file rest IH]; intros ts H; simpl in H.
  - simplify_eq. constructor.
  - unfold parse_time_step in H.
    destruct (PyStr.int _) as [t|] eqn:Ht; [|done]. simpl in H.
    destruct (parse_time_steps rest) as [ts'|]; [|done]. simpl in H.
    simplify_eq. constructor; [done | by apply IH].
Qed.


(** *** The slice is taken from the joined path *)





(** *** Files and time steps of a field folder *)

Lemma select_h5_spec path (all_files : list string) p :
  In p (select_h5 path all_files) <->
  exists file, In file all_files /\ endswith file ".h5" = true /\
    p = path_join path file.
Proof.
  unfold select_h5. rewrite in_map_iff. split.
  - intros (file & <- & Hin). apply filter_In in Hin as [? ?]. by exists file.
  - intros (file & ? & ? & ->). exists file. split; [done|].
    by apply filter_In.
Qed.


Section SortedScan.

Variable argsort : list Z -> list nat.
Hypothesis argsort_sorts : forall a, argsort_ok a (argsort a).




End SortedScan.

(** *** Stable index sorts *)








Section Stable.

Variable argsort : list Z -> list nat.



End Stable.




(** *** Standard names of field folders *)

(** The design document's reading of the decoration: only a trailing
    ["-savg"] is stripped from the folder name. *)
Definition strip_savg_suffix_spec (name : string) : string :=
  if endswith name "-savg"
  then substring 0 (String.length name - 5) name
  else name.

Example strip_suffix_e1 : strip_savg_suffix_spec "e1-savg" = "e1".
Proof. reflexivity. Qed.
Example strip_suffix_inside : strip_savg_suffix_spec "-savge1" = "-savge1".
Proof. reflexivity. Qed.

(** A folder listing that holds a field folder with an unknown name. *)
Definition unknown_field_folder (fields : list (string * entry)) : Prop :=
  exists name e, In (name, e) fields /\ isdir e = true /\
    dict_get name_relations (_get_osiris_field_name name) = None.

Section ScanFailure.

Variable argsort : list Z -> list nat.

Lemma create_field_unknown field_name field_folder folder species :
  dict_get name_relations (_get_osiris_field_name field_name) = None ->
  _create_field argsort field_name field_folder folder species
  = Raise (ValueError [Text "Unknown data name ";
                       ArgStr (_get_osiris_field_name field_name);
                       Text "."]).
Proof.
  intros H. unfold _create_field, _get_standard_visualpic_name.
  by rewrite H.
Qed.

Lemma create_field_known field_name field_folder folder species v :
  dict_get name_relations (_get_osiris_field_name field_name) = Some v ->
  _create_field argsort field_name field_folder folder species
  = result_bind (_get_files_and_timesteps argsort field_folder folder)
      (fun '(fld_files, time_steps) =>
         Ok (mkFolderField v ("/" ++ _get_osiris_field_name field_name)
               fld_files time_steps "uc" species)).
Proof.
  intros H. unfold _create_field, _get_standard_visualpic_name.
  by rewrite H.
Qed.

Lemma scan_field_folders_raise dir fields species field_list :
  unknown_field_folder fields ->
  exists x,
    scan_field_folders argsort dir fields species field_list = Raise x.
Proof.
  intros (name & e & Hin & Hdir & Hnone). revert field_list.
  induction fields as [|[field e'] rest IH]; intros field_list; [done|].
  simpl. destruct Hin as [Heq|Hin].
  - simplify_eq. rewrite Hdir, create_field_unknown by done. by eexists.
  - destruct (isdir e'); [|by apply IH].
    destruct (_create_field _ _ _ _ _); simpl; [by apply IH | by eexists].
Qed.

Lemma scan_species_raise subdir available species fields field_list :
  In (species, Folder fields) available ->
  unknown_field_folder fields ->
  exists x, scan_species argsort subdir available field_list = Raise x.
Proof.
  intros Hin Hbad. revert field_list.
  induction available as [|[sp e'] rest IH]; intros field_list; [done|].
  simpl. destruct Hin as [Heq|Hin].
  - simplify_eq. simpl.
    destruct (scan_field_folders_raise (path_join subdir species) fields
                species field_list Hbad) as [x ->].
    by eexists.
  - destruct (isdir e'); [|by apply IH].
    destruct e' as [|children]; simpl; [by eexists|].
    destruct (scan_field_folders _ _ _ _ _); simpl;
      [by apply IH | by eexists].
Qed.

Lemma scan_top_raise folder_path folders field_list :
  ((exists fields, In ("FLD", Folder fields) folders /\
      unknown_field_folder fields) \/
   (exists available species fields,
      In ("DENSITY", Folder available) folders /\
      In (species, Folder fields) available /\
      unknown_field_folder fields)) ->
  exists x, scan_top argsort folder_path folders field_list = Raise x.
Proof.
  intros Hbad. revert field_list.
  induction folders as [|[folder e] rest IH]; intros field_list.
  { destruct Hbad as [(? & [] & _)|(? & ? & ? & [] & _)]. }
  cbn [scan_top].
  assert (Hhead :
    (exists fields, folder = "FLD" /\ e = Folder fields /\
       unknown_field_folder fields) \/
    (exists available species fields, folder = "DENSITY" /\
       e = Folder available /\ In (species, Folder fields) available /\
       unknown_field_folder fields) \/
    (forall field_list', exists x,
       scan_top argsort folder_path rest field_list' = Raise x)).
  { destruct Hbad as [(fields & [Heq|Hin] & Hu)
                     |(av & sp & fields & [Heq|Hin] & Hsp & Hu)].
    - simplify_eq. left. by exists fields.
    - right; right. intros fl. apply IH. left. by exists fields.
    - simplify_eq. right; left. by exists av, sp, fields.
    - right; right. intros fl. apply IH. right. by exists av, sp, fields. }
  destruct Hhead as [(fields & -> & -> & Hu)
                    |[(av & sp & fields & -> & -> & Hsp & Hu)|Hrest]].
  - simpl.
    destruct (scan_field_folders_raise (path_join folder_path "FLD") fields
                "" field_list Hu) as [x ->].
    by eexists.
  - simpl.
    destruct (scan_species_raise (path_join folder_path "DENSITY") av sp
                fields field_list Hsp Hu) as [x ->].
    by eexists.
  - destruct (result_bind (if String.eqb folder "DENSITY" then _ else _) _)
      as [fl|x] eqn:Hb; [|by eexists].
    destruct (if String.eqb folder "DENSITY" then _ else _) as [fl1|];
      [|done].
    simpl in Hb.
    destruct (if String.eqb folder "FLD" then _ else _) as [fl2|]; [|done].
    simpl in Hb. destruct (Hrest fl2) as [x Hx]. congruence.
Qed.

End ScanFailure.

Lemma name_relations_table k v :
  dict_get name_relations k = Some v <->
  In (k, v) [("e1", "Ez"); ("e2", "Ex"); ("e3", "Ey"); ("b1", "Bz");
             ("b2", "Bx"); ("b3", "By"); ("charge", "rho")].
Proof.
  split.
  - unfold name_relations. cbn [dict_get]. intros H.
    repeat match type of H with
      | (if String.eqb ?a ?b then _ else _) = _ =>
          destruct (String.eqb_spec a b); [simplify_eq; simpl; tauto|]
      end.
    done.
  - intros H. simpl in H.
    repeat (destruct H as [H|H]; [by simplify_eq|]). done.
Qed.

Example scan_e1_savg :
  get_list_of_fields stable_argsort "sim"
    (Folder [("FLD", Folder [("e1-savg",
                Folder [("e1-savg-000010.h5", File);
                        ("e1-savg-000000.h5", File)])])])
  = Ok [mkFolderField "Ez" "/e1"
          ["sim/FLD/e1-savg/e1-savg-000000.h5";
           "sim/FLD/e1-savg/e1-savg-000010.h5"] [0; 10] "uc" ""].
Proof. reflexivity. Qed.

Example scan_species_charge :
  get_list_of_fields stable_argsort "sim"
    (Folder [("DENSITY", Folder [("electrons", Folder [("charge", Folder [])]);
                                 ("ions", Folder [("charge", Folder [])])])])
  = Ok [mkFolderField "rho" "/charge" [] [] "uc" "electrons";
        mkFolderField "rho" "/charge" [] [] "uc" "ions"].
Proof. reflexivity. Qed.

(** C7 (as the code has it).  The name of a field folder is reduced by
    removing every occurrence of ["-savg"], wherever it stands, and the
    reduced name is looked up in the table e1->Ez, e2->Ex, e3->Ey, b1->Bz,
    b2->Bx, b3->By, charge->rho:
    - the text on both sides of an occurrence of ["-savg"] is reduced
      independently, and a name without an occurrence is left as it is;
    - a reduced name in the table gives the descriptor its standard name,
      and ["e1-savg"] gives ["Ez"];
    - a reduced name that is not in the table makes [_create_field] raise
      [ValueError('Unknown data name ...')], and a scan that meets such a
      field folder under [FLD] or under a species of [DENSITY] raises. *)
Theorem standard_name_removes_every_savg
    (argsort : list Z -> list nat)
    (field_name field_folder : string) (folder : entry) (species : string) :
  let osiris_name := _get_osiris_field_name field_name in
  (forall a b,
     _get_osiris_field_name (a ++ "-savg" ++ b)
     = _get_osiris_field_name a ++ _get_osiris_field_name b) /\
  ((forall a b, field_name <> a ++ "-savg" ++ b) ->
     osiris_name = field_name) /\
  (forall k v,
     dict_get name_relations k = Some v <->
     In (k, v) [("e1", "Ez"); ("e2", "Ex"); ("e3", "Ey"); ("b1", "Bz");
                ("b2", "Bx"); ("b3", "By"); ("charge", "rho")]) /\
  (forall v, dict_get name_relations osiris_name = Some v ->
     _create_field argsort field_name field_folder folder species
     = result_bind (_get_files_and_timesteps argsort field_folder folder)
         (fun '(fld_files, time_steps) =>
            Ok (mkFolderField v ("/" ++ osiris_name) fld_files time_steps
                  "uc" species))) /\
  _get_standard_visualpic_name (_get_osiris_field_name "e1-savg") = Ok "Ez" /\
  (dict_get name_relations osiris_name = None ->
     _create_field argsort field_name field_folder folder species
     = Raise (ValueError [Text "Unknown data name "; ArgStr osiris_name;
                          Text "."])) /\
  (forall folder_path folders,
     ((exists fields, In ("FLD", Folder fields) folders /\
         unknown_field_folder fields) \/
      (exists available sp fields,
         In ("DENSITY", Folder available) folders /\
         In (sp, Folder fields) available /\
         unknown_field_folder fields)) ->
     exists x,
       get_list_of_fields argsort folder_path (Folder folders) = Raise x).
Proof.
  intros osiris_name. repeat split.
  - intros a b. apply replace_savg_app.
  - intros Hno. by apply replace_no_occurrence.
  - by intros ?%name_relations_table.
  - by intros ?%name_relations_table.
  - intros v Hv. by apply create_field_known.
  - intros Hnone. by apply create_field_unknown.
  - intros folder_path folders Hbad. by apply scan_top_raise.
Qed.

(** C7 fails as it is worded: in ["-savge1"] the marker is not a suffix, so
    stripping a suffix leaves a name that is not in the table; the scanner
    removes the marker all the same and standardizes the folder to "Ez". *)
Lemma savg_inside_name_counterexample :
  _get_standard_visualpic_name (_get_osiris_field_name "-savge1") = Ok "Ez" /\
  _get_standard_visualpic_name (strip_savg_suffix_spec "-savge1")
  = Raise (ValueError [Text "Unknown data name "; ArgStr "-savge1";
                       Text "."]) /\
  get_list_of_fields stable_argsort "sim"
    (Folder [("FLD", Folder [("-savge1", Folder [])])])
  = Ok [mkFolderField "Ez" "/e1" [] [] "uc" ""].
Proof. repeat split. Qed.

End ScannerProps.

(** ** Particle species *)

Module ParticleSpecies.

(** Python objects that are shared between calls live in a store and are
    named by a reference. *)
Definition loc : Type := nat.

Section Model.

(** The numeric arrays that the reader returns; their content plays no part
    in the control flow of this module. *)
Variable array : Type.

(** Whatever else the reader, the unit converter and the recipes keep
    between two calls (open files, caches, ...). *)
Variable world : Type.

(** A metadata dictionary is an object: the tuple stored for a component
    holds the array and a reference to the dictionary, and two tuples may
    hold the same reference.  [pdata] is the dictionary from a component
    name to its tuple (array, metadata). *)
Abbreviation metadata := (gmap string string).
Abbreviation pdata := (gmap string (array * loc)).

(** The objects that the collaborators of this module create and change:
    the metadata dictionaries, and their own state.  The lists of the
    species are not among them, and a dictionary of tuples is passed and
    returned as a value: of the particle data, the metadata dictionaries
    are the objects that this module itself changes in place. *)
Record objects : Type := mk_objects {
  metas : gmap loc metadata;
  ext : world
}.

(** A call that leaves this module returns or raises, and may create and
    change objects on the way. *)
Definition external (A : Type) : Type := objects -> result A * objects.

(** One entry of [derived_particle_data_definitions]. *)
Record data_def : Type := mk_data_def {
  name : string;
  units : string;
  requirements : list string;
  recipe : pdata -> external array
}.

(** The table of derived quantities, [data_reader.read_particle_data] and
    [unit_converter.convert_particle_data_units]. *)
Variable derived_particle_data_definitions : list data_def.
Variable read_particle_data :
  string -> string -> list string -> external pdata.
Variable convert_particle_data_units :
  pdata -> gmap string string -> option string -> external pdata.

(** Calls that leave this module, with what came back. *)
Inductive event : Type :=
| ReadParticleData (file_path species_name : string)
    (components_list : list string) (outcome : result pdata)
| ConvertUnits (data : pdata) (target_data_units : gmap string string)
    (target_time_units : option string) (outcome : result pdata)
| Recipe (data_name : string) (required_data : pdata)
    (outcome : result array).

Record state : Type := mk_state {
  lists : gmap loc (list string);
  objs : objects;
  log : list event
}.

(** Computations that read and write the state and may raise; the state
    reached when an exception is raised is kept. *)
Definition M (A : Type) : Type := state -> result A * state.

Definition ret {A} (a : A) : M A := fun st => (Ok a, st).

Definition raise {A} (e : exn) : M A := fun st => (Raise e, st).

Definition bind {A B} (m : M A) (k : A -> M B) : M B :=
  fun st =>
    match m st with
    | (Ok a, st') => k a st'
    | (Raise e, st') => (Raise e, st')
    end.

Notation "x <- m ;; k" := (bind m (fun x => k))
  (at level 100, m at next level, right associativity).
Notation "m ;;; k" := (bind m (fun _ => k))
  (at level 100, right associativity).

Definition lift {A} (r : result A) : M A := fun st => (r, st).

(** A call of a collaborator: it runs on the objects, its outcome is logged
    and an exception that it raises is passed on. *)
Definition call {A} (f : external A) (ev : result A -> event) : M A :=
  fun st =>
    let r := f (objs st) in
    (r.1, mk_state (lists st) r.2 (log st ++ [ev r.1])%list).

(** [md[key] = value] on the metadata dictionary behind a reference: the
    object is changed in place.  A reference that holds no dictionary does
    not support item assignment. *)
Definition set_item (md : loc) (key value : string) : M unit :=
  fun st =>
    match metas (objs st) !! md with
    | Some d =>
        (Ok tt,
         mk_state (lists st)
           (mk_objects (<[md := <[key := value]> d]> (metas (objs st)))
              (ext (objs st)))
           (log st))
    | None => (Raise TypeError, st)
    end.

(** Reading the list behind a reference. *)
Definition deref (attr : string) (l : loc) : M (list string) :=
  fun st =>
    match lists st !! l with
    | Some v => (Ok v, st)
    | None => (Raise (AttributeError attr), st)
    end.

(** A new list object. *)
Definition alloc (v : list string) : M loc :=
  fun st =>
    let l := fresh (dom (lists st)) in
    (Ok l, mk_state (<[l := v]> (lists st)) (objs st) (log st)).

(** [l.remove(x)]: the first occurrence goes, in place. *)
Fixpoint remove_first (x : string) (v : list string) : option (list string) :=
  match v with
  | [] => None
  | y :: v' =>
      if String.eqb y x then Some v'
      else cons y <$> remove_first x v'
  end.

Definition list_remove (l : loc) (x : string) : M unit :=
  v <- deref "list" l ;;
  match remove_first x v with
  | Some v' =>
      fun st => (Ok tt, mk_state (<[l := v']> (lists st)) (objs st) (log st))
  | None => raise (ValueError [Text "list.remove(x): x not in list"])
  end.
(** [x in l] for a list of strings. *)
Definition py_in (x : string) (l : list string) : bool :=
  existsb (String.eqb x) l.

(** [dict(zip(keys, values))]: a later pair overwrites an earlier one. *)
Definition dict_zip (keys values : list string) : gmap string string :=
  fold_left (fun m kv => <[kv.1 := kv.2]> m) (combine keys values) ∅.

(** [l.index(x)] *)
Fixpoint list_index (x : Z) (l : list Z) : option nat :=
  match l with
  | [] => None
  | y :: l' => if Z.eqb y x then Some O else S <$> list_index x l'
  end.

(** The species object. *)
Record species : Type := mk_species {
  species_name : string;
  components_in_file : loc;
  derived_components : loc;
  timesteps : list Z;
  species_files : list string
}.

(** [set(requirements).issubset(components_in_file)] *)
Definition issubset (reqs components : list string) : bool :=
  bool_decide ((list_to_set reqs : gset string) ⊆ list_to_set components).

Fixpoint _determine_available_derived_components_in
    (definitions : list data_def) (components_in_file : list string)
  : list string :=
  match definitions with
  | [] => []
  | component :: rest =>
      if issubset (requirements component) components_in_file
      then name component
             :: _determine_available_derived_components_in rest
                  components_in_file
      else _determine_available_derived_components_in rest
             components_in_file
  end.

Definition _determine_available_derived_components
    (components_in_file : list string) : list string :=
  _determine_available_derived_components_in
    derived_particle_data_definitions components_in_file.

(** [ParticleSpecies(species_name, components_in_file, species_timesteps,
    species_files, data_reader, unit_converter)]: the object keeps the
    caller's list of components and a new list of derived components. *)
Definition __init__ (species_name : string) (components_in_file : loc)
    (species_timesteps : list Z) (species_files : list string) : M species :=
  components <- deref "components_in_file" components_in_file ;;
  derived <- alloc (_determine_available_derived_components components) ;;
  ret (mk_species species_name components_in_file derived species_timesteps
         species_files).

(** Modelled from the spec: [get_definition] of the module
    [derived_particle_data_definitions], which is not among the sources
    here.  The design document gives [get_definition(name) -> definition],
    failing with [UnknownDerivedQuantityError] if absent. *)
Definition get_definition (data_name : string) : result data_def :=
  match List.find (fun d => String.eqb (name d) data_name)
          derived_particle_data_definitions with
  | Some d => Ok d
  | None => Raise (UnknownDerivedQuantityError data_name)
  end.

(** [get_list_of_available_components(self, include_tags=False)] *)
Definition get_list_of_available_components (self : species)
    (include_tags : bool) : M loc :=
  components <- deref "components_in_file" (components_in_file self) ;;
  derived <- deref "derived_components" (derived_components self) ;;
  all_components <- alloc (components ++ derived)%list ;;
  current <- deref "list" all_components ;;
  (if negb include_tags && py_in "tag" current
   then list_remove all_components "tag"
   else ret tt) ;;;
  ret all_components.

(** The four lists that the first loop of [get_data] fills. *)
Record split : Type := mk_split {
  comp_to_read : list string;
  comp_to_read_units : option (list string);
  derived_to_compute : list string;
  derived_components_units : option (list string)
}.

(** [units.append(data_units[i])] when units are specified. *)
Definition append_unit (acc_units data_units : option (list string))
    (i : nat) : result (option (list string)) :=
  match acc_units, data_units with
  | Some us, Some du =>
      match du !! i with
      | Some u => Ok (Some (us ++ [u])%list)
      | None => Raise IndexError
      end
  | _, _ => Ok acc_units
  end.

(** [for i, component in enumerate(components_list): ...] *)
Fixpoint split_components (self : species) (data_units : option (list string))
    (i : nat) (components_list : list string) (acc : split) : M split :=
  match components_list with
  | [] => ret acc
  | component :: rest =>
      in_file <- deref "components_in_file" (components_in_file self) ;;
      if py_in component in_file then
        us <- lift (append_unit (comp_to_read_units acc) data_units i) ;;
        split_components self data_units (S i) rest
          (mk_split (comp_to_read acc ++ [component])%list us
             (derived_to_compute acc) (derived_components_units acc))
      else
        derived <- deref "derived_components" (derived_components self) ;;
        if py_in component derived then
          us <- lift (append_unit (derived_components_units acc)
                        data_units i) ;;
          split_components self data_units (S i) rest
            (mk_split (comp_to_read acc) (comp_to_read_units acc)
               (derived_to_compute acc ++ [component])%list us)
        else
          available_comps <- get_list_of_available_components self false ;;
          shown <- deref "list" available_comps ;;
          raise (ValueError [Text "Component '"; ArgStr component;
                             Text "' not found. ";
                             Text "Available components are ";
                             ArgList shown; Text "."])
  end.

(** [_get_file_path(self, time_step)] *)
Definition _get_file_path (self : species) (time_step : Z) : result string :=
  match list_index time_step (timesteps self) with
  | None => Raise (ValueError [ArgInt time_step; Text " is not in list"])
  | Some ts_i =>
      match species_files self !! ts_i with
      | Some file_path => Ok file_path
      | None => Raise IndexError
      end
  end.

(** [_convert_data_units(self, data, components_list, data_units,
    time_units)] *)
Definition _convert_data_units (data : pdata) (components_list : list string)
    (data_units : option (list string)) (time_units : option string)
  : M pdata :=
  match data_units with
  | Some us =>
      let units_dict := dict_zip components_list us in
      call (convert_particle_data_units data units_dict time_units)
        (ConvertUnits data units_dict time_units)
  | None => ret data
  end.

(** [_get_file_data(self, file_path, components_list, data_units,
    time_units)] *)
Definition _get_file_data (self : species) (file_path : string)
    (components_list : list string) (data_units : option (list string))
    (time_units : option string) : M pdata :=
  data <- call
            (read_particle_data file_path (species_name self) components_list)
            (ReadParticleData file_path (species_name self) components_list) ;;
  _convert_data_units data components_list data_units time_units.

(** The body of the loop of [_calculate_derived_data] for one name.  The
    recipe runs first; then the metadata object of the first requirement is
    looked up, its 'units' are set in place, and the same object goes into
    the tuple of the derived component. *)
Definition derive_one (self : species) (file_path : string) (name' : string)
    (time_units : option string) (derived_data_dict : pdata) : M pdata :=
  data_def <- lift (get_definition name') ;;
  let data_name := name data_def in
  let data_units := units data_def in
  let required_data_list := requirements data_def in
  let required_data_units := replicate (length required_data_list) "SI" in
  required_data <- _get_file_data self file_path required_data_list
                     (Some required_data_units) time_units ;;
  derived_data <- call (recipe data_def required_data)
                    (Recipe data_name required_data) ;;
  first <- match required_data_list with
           | r :: _ => ret r
           | [] => raise IndexError
           end ;;
  entry <- match required_data !! first with
           | Some e => ret e
           | None => raise (KeyError first)
           end ;;
  let derived_data_md := entry.2 in
  set_item derived_data_md "units" data_units ;;;
  ret (<[data_name := (derived_data, derived_data_md)]> derived_data_dict).

Fixpoint derive_all (self : species) (file_path : string)
    (data_list : list string) (time_units : option string)
    (derived_data_dict : pdata) : M pdata :=
  match data_list with
  | [] => ret derived_data_dict
  | name' :: rest =>
      d <- derive_one self file_path name' time_units derived_data_dict ;;
      derive_all self file_path rest time_units d
  end.

(** [_calculate_derived_data(self, file_path, data_list, target_data_units,
    time_units)] *)
Definition _calculate_derived_data (self : species) (file_path : string)
    (data_list : list string) (target_data_units : option (list string))
    (time_units : option string) : M pdata :=
  derived_data_dict <- derive_all self file_path data_list time_units ∅ ;;
  _convert_data_units derived_data_dict data_list target_data_units
    time_units.

(** [get_data(self, time_step, components_list, data_units=None,
    time_units=None)] *)
Definition get_data (self : species) (time_step : Z)
    (components_list : list string) (data_units : option (list string))
    (time_units : option string) : M pdata :=
  let units_are_specified := bool_decide (is_Some data_units) in
  let len_units := from_option length 0%nat data_units in
  if units_are_specified
     && negb (length components_list =? len_units)%nat
  then
    raise (ValueError
             [Text "Lenght of components list (";
              ArgInt (Z.of_nat (length components_list)); Text ")";
              Text " and data units list (";
              ArgInt (Z.of_nat len_units); Text ") do not match."])
  else
    let empty_units := if units_are_specified then Some [] else None in
    parts <- split_components self data_units 0 components_list
               (mk_split [] empty_units [] empty_units) ;;
    file_path <- lift (_get_file_path self time_step) ;;
    folder_data <- _get_file_data self file_path (comp_to_read parts)
                     (comp_to_read_units parts) time_units ;;
    derived_data <- _calculate_derived_data self file_path
                      (derived_to_compute parts)
                      (derived_components_units parts) time_units ;;
    ret (derived_data ∪ folder_data).

(** *** Membership tests *)

Lemma py_in_true x l : py_in x l = true <-> x ∈ l.
Proof.
  unfold py_in. rewrite existsb_exists, list_elem_of_In. split.
  - by intros (y & Hin & ->%String.eqb_eq).
  - intros Hin. exists x. by rewrite String.eqb_refl.
Qed.

Lemma py_in_false x l : py_in x l = false <-> x ∉ l.
Proof.
  rewrite <- py_in_true. destruct (py_in x l); split; congruence.
Qed.

Lemma issubset_true reqs components :
  issubset reqs components = true <->
  (list_to_set reqs : gset string) ⊆ list_to_set components.
Proof. unfold issubset. apply bool_decide_eq_true. Qed.

Lemma subset_as_lists (reqs components : list string) :
  (list_to_set reqs : gset string) ⊆ list_to_set components <->
  (forall r, r ∈ reqs -> r ∈ components).
Proof.
  split.
  - intros Hsub r Hr. apply (elem_of_list_to_set (C := gset string)).
    apply Hsub. by apply elem_of_list_to_set.
  - intros Hall r Hr%elem_of_list_to_set.
    apply elem_of_list_to_set. by apply Hall.
Qed.

(** *** The derived components of a species *)

Lemma determine_in_iff definitions components n :
  n ∈ _determine_available_derived_components_in definitions components <->
  exists d, d ∈ definitions /\ name d = n /\
    issubset (requirements d) components = true.
Proof.
  induction definitions as [|c rest IH]; simpl.
  - split; [by intros ?%elem_of_nil | by intros (? & ?%elem_of_nil & _)].
  - destruct (issubset (requirements c) components) eqn:Hc.
    + rewrite elem_of_cons, IH. split.
      * intros [->|(d & ? & ? & ?)]; [exists c | exists d];
          by rewrite elem_of_cons; auto.
      * intros (d & [->|?]%elem_of_cons & ? & ?); [by left|].
        right. by exists d.
    + rewrite IH. split.
      * intros (d & ? & ? & ?). exists d. by rewrite elem_of_cons; auto.
      * intros (d & [->|?]%elem_of_cons & ? & ?); [congruence|].
        by exists d.
Qed.

Lemma names_identify_definitions (definitions : list data_def) d d' :
  NoDup (name <$> definitions) ->
  d ∈ definitions -> d' ∈ definitions -> name d = name d' -> d = d'.
Proof.
  induction definitions as [|c rest IH]; intros Hnd Hd Hd' Heq.
  { by apply elem_of_nil in Hd. }
  rewrite fmap_cons in Hnd. apply NoDup_cons in Hnd as [Hc Hnd].
  apply elem_of_cons in Hd as [->|Hd], Hd' as [->|Hd']; [done| | |by apply IH].
  - apply (list_elem_of_fmap_2 name) in Hd'. exfalso. apply Hc. congruence.
  - apply (list_elem_of_fmap_2 name) in Hd. exfalso. apply Hc. congruence.
Qed.

(** Every derived component has a definition. *)
Lemma get_definition_of_derived components n :
  n ∈ _determine_available_derived_components components ->
  exists d, get_definition n = Ok d /\ name d = n /\
    d ∈ derived_particle_data_definitions.
Proof.
  intros (d & Hd & Hn & _)%determine_in_iff. unfold get_definition.
  destruct (List.find _ _) as [d'|] eqn:Hfind.
  - apply find_some in Hfind as [Hin Hn'%String.eqb_eq].
    exists d'. by rewrite <- list_elem_of_In in Hin.
  - apply list_elem_of_In in Hd.
    pose proof (find_none _ _ Hfind d Hd) as Hf. simpl in Hf.
    rewrite Hn, String.eqb_refl in Hf. done.
Qed.

Lemma get_definition_name n d : get_definition n = Ok d -> name d = n.
Proof.
  unfold get_definition. destruct (List.find _ _) as [d'|] eqn:Hfind; [|done].
  intros [= <-]. by apply find_some in Hfind as [_ ?%String.eqb_eq].
Qed.

Lemma get_definition_in n d :
  get_definition n = Ok d -> d ∈ derived_particle_data_definitions.
Proof.
  unfold get_definition. destruct (List.find _ _) as [d'|] eqn:Hfind; [|done].
  intros [= <-]. apply find_some in Hfind as [Hin _].
  by apply list_elem_of_In.
Qed.

(** C1.  Let the names of the definitions in the table be distinct.  A
    species built by [__init__] from a list [in_file] of components keeps
    that list and gets a new list of derived components, and for every
    definition of the table its name is in that list exactly when the set of
    its requirements is a subset of the components in the file, that is,
    when each requirement is one of them. *)
Theorem derived_iff_requirements_subset
    (Hnames : NoDup (name <$> derived_particle_data_definitions))
    (species_name' : string) (components : loc) (steps : list Z)
    (files : list string) (st : state) (in_file : list string)
    (Hstore : lists st !! components = Some in_file) :
  exists self derived,
    __init__ species_name' components steps files st
    = (Ok self,
       mk_state (<[derived_components self := derived]> (lists st))
         (objs st) (log st)) /\
    components_in_file self = components /\
    (derived_components self ∉ dom (lists st)) /\
    derived = _determine_available_derived_components in_file /\
    forall d, d ∈ derived_particle_data_definitions ->
      (name d ∈ derived <->
       ((list_to_set (requirements d) : gset string) ⊆ list_to_set in_file))
      /\
      (name d ∈ derived <-> (forall r, r ∈ requirements d -> r ∈ in_file)).
Proof.
  eexists (mk_species species_name' components
             (fresh (dom (lists st))) steps files), _.
  split; [|split; [|split; [|split]]].
  - unfold __init__, bind, deref, alloc, ret. by rewrite Hstore.
  - done.
  - simpl. apply is_fresh.
  - done.
  - intros d Hd.
    assert (name d ∈ _determine_available_derived_components in_file <->
            ((list_to_set (requirements d) : gset string)
               ⊆ list_to_set in_file)) as Hiff.
    { unfold _determine_available_derived_components.
      rewrite determine_in_iff. split.
      - intros (d' & Hd' & Heq & Hsub).
        rewrite <- (names_identify_definitions _ _ _ Hnames Hd' Hd Heq).
        by apply issubset_true.
      - intros Hsub. exists d. by rewrite issubset_true. }
    split; [done|]. by rewrite Hiff, subset_as_lists.
Qed.

(** The first statement of [get_data] is the check of the two lengths. *)
Lemma length_check_raises self time_step (components_list us : list string)
    time_units st :
  length components_list <> length us ->
  exists e,
    get_data self time_step components_list (Some us) time_units st
    = (Raise e, st) /\
    e = ValueError
          [Text "Lenght of components list (";
           ArgInt (Z.of_nat (length components_list)); Text ")";
           Text " and data units list (";
           ArgInt (Z.of_nat (length us)); Text ") do not match."].
Proof.
  intros Hlen. eexists. split; [|done].
  unfold get_data. cbn [from_option].
  rewrite (bool_decide_eq_true_2 (is_Some (Some us))) by by eexists.
  by apply Nat.eqb_neq in Hlen as ->.
Qed.

(** C6.  When [data_units] is given and its length differs from the length
    of [components_list], [get_data] raises the [ValueError] that reports
    both lengths, and the state is the one before the call: nothing was
    read, converted, computed or allocated. *)
Theorem mismatched_lengths_fail_first
    (self : species) (time_step : Z) (components_list data_units : list string)
    (time_units : option string) (st : state)
    (Hlen : length components_list <> length data_units) :
  get_data self time_step components_list (Some data_units) time_units st
  = (Raise (ValueError
              [Text "Lenght of components list (";
               ArgInt (Z.of_nat (length components_list)); Text ")";
               Text " and data units list (";
               ArgInt (Z.of_nat (length data_units));
               Text ") do not match."]),
     st).
Proof.
  by destruct (length_check_raises self time_step components_list data_units
                 time_units st Hlen) as (e & -> & ->).
Qed.

(** *** Listing the available components *)

(** What [get_list_of_available_components] puts in its new list. *)
Definition listed_components (include_tags : bool) (all : list string)
  : list string :=
  if negb include_tags && py_in "tag" all
  then default all (remove_first "tag" all)
  else all.

Lemma remove_first_split x pre post :
  x ∉ pre -> remove_first x (pre ++ x :: post)%list = Some (pre ++ post)%list.
Proof.
  induction pre as [|y pre IH]; intros Hx; simpl.
  - by rewrite String.eqb_refl.
  - apply not_elem_of_cons in Hx as [Hxy Hx].
    destruct (String.eqb_spec y x); [congruence|]. by rewrite IH.
Qed.

Lemma remove_first_absent x v : x ∉ v -> remove_first x v = None.
Proof.
  induction v as [|y v IH]; intros Hx; simpl; [done|].
  apply not_elem_of_cons in Hx as [Hxy Hx].
  destruct (String.eqb_spec y x); [congruence|]. by rewrite IH.
Qed.

Lemma first_occurrence (x : string) v :
  x ∈ v -> exists pre post, v = (pre ++ x :: post)%list /\ x ∉ pre.
Proof.
  induction v as [|y v IH]; intros Hx; [by apply elem_of_nil in Hx|].
  destruct (decide (y = x)) as [->|Hne].
  - exists [], v. split; [done | apply not_elem_of_nil].
  - apply elem_of_cons in Hx as [?|Hx]; [congruence|].
    destruct (IH Hx) as (pre & post & -> & Hpre).
    exists (y :: pre), post. split; [done|].
    apply not_elem_of_cons. auto.
Qed.

Lemma listed_components_with_tags all : listed_components true all = all.
Proof. done. Qed.

Lemma listed_components_drops_first_tag pre post :
  "tag" ∉ pre ->
  listed_components false (pre ++ "tag" :: post)%list = (pre ++ post)%list.
Proof.
  intros Hpre. unfold listed_components. simpl.
  assert (py_in "tag" (pre ++ "tag" :: post)%list = true) as ->.
  { apply py_in_true. set_solver. }
  by rewrite remove_first_split.
Qed.

Lemma listed_components_no_tag all :
  "tag" ∉ all -> listed_components false all = all.
Proof.
  intros Hno. unfold listed_components.
  by apply py_in_false in Hno as ->.
Qed.

Lemma get_list_of_available_components_spec self include_tags st
    in_file derived :
  lists st !! components_in_file self = Some in_file ->
  lists st !! derived_components self = Some derived ->
  get_list_of_available_components self include_tags st
  = (Ok (fresh (dom (lists st))),
     mk_state (<[fresh (dom (lists st))
                 := listed_components include_tags (in_file ++ derived)%list]>
                 (lists st))
       (objs st) (log st)).
Proof.
  intros Hf Hd.
  unfold get_list_of_available_components, bind, deref, alloc, ret.
  rewrite Hf, Hd. simpl. rewrite lookup_insert_eq.
  unfold listed_components.
  destruct (negb include_tags && py_in "tag" (in_file ++ derived)%list)
    eqn:Hcond; [|done].
  apply andb_true_iff in Hcond as [_ Htag]. apply py_in_true in Htag.
  destruct (first_occurrence _ _ Htag) as (pre & post & Heq & Hpre).
  unfold list_remove, bind, deref. simpl. rewrite lookup_insert_eq.
  rewrite Heq, remove_first_split by done. simpl.
  by rewrite insert_insert_eq.
Qed.

(** *** The first loop of [get_data] *)

(** The requested components that are read from the file, those that are
    derived, and the units that go with either group. *)
Definition raw_part (in_file components_list : list string) : list string :=
  List.filter (fun c => py_in c in_file) components_list.

Definition derived_part (in_file components_list : list string)
  : list string :=
  List.filter (fun c => negb (py_in c in_file)) components_list.

Definition selected_units (keep : string -> bool)
    (components_list data_units : list string) : list string :=
  map snd (List.filter (fun cu => keep cu.1)
             (combine components_list data_units)).

Definition extend_units (acc_units data_units : option (list string))
    (i : nat) (keep : string -> bool) (components_list : list string)
  : option (list string) :=
  match acc_units, data_units with
  | Some a, Some du =>
      Some (a ++ selected_units keep components_list (drop i du))%list
  | _, _ => acc_units
  end.

Definition available (in_file derived : list string) (c : string) : bool :=
  py_in c in_file || py_in c derived.

Lemma extend_units_nil acc_units data_units i keep :
  extend_units acc_units data_units i keep [] = acc_units.
Proof.
  destruct acc_units as [a|], data_units as [du|]; simpl; try done.
  unfold selected_units. simpl. by rewrite app_nil_r.
Qed.

Lemma append_unit_extend acc_units data_units i keep c rest :
  (forall du, data_units = Some du -> (i < length du)%nat) ->
  exists pushed,
    append_unit acc_units data_units i = Ok pushed /\
    extend_units acc_units data_units i keep (c :: rest)
    = if keep c then extend_units pushed data_units (S i) keep rest
      else extend_units acc_units data_units (S i) keep rest.
Proof.
  intros Hlen. destruct data_units as [du|].
  - destruct (lookup_lt_is_Some_2 du i (Hlen du eq_refl)) as [u Hu].
    destruct acc_units as [a|]; simpl; rewrite ?Hu.
    + eexists. split; [done|].
      rewrite (drop_S _ _ _ Hu). unfold selected_units. simpl.
      destruct (keep c); simpl; [|done]. by rewrite <- app_assoc.
    + eexists. split; [done|]. by destruct (keep c).
  - destruct acc_units as [a|]; simpl; eexists; (split; [done|]);
      by destruct (keep c).
Qed.

Lemma split_components_ok self data_units i components_list acc st
    in_file derived :
  lists st !! components_in_file self = Some in_file ->
  lists st !! derived_components self = Some derived ->
  Forall (fun c => available in_file derived c = true) components_list ->
  (forall du, data_units = Some du ->
     (i + length components_list <= length du)%nat) ->
  split_components self data_units i components_list acc st
  = (Ok (mk_split
           (comp_to_read acc ++ raw_part in_file components_list)%list
           (extend_units (comp_to_read_units acc) data_units i
              (fun c => py_in c in_file) components_list)
           (derived_to_compute acc
              ++ derived_part in_file components_list)%list
           (extend_units (derived_components_units acc) data_units i
              (fun c => negb (py_in c in_file)) components_list)),
     st).
Proof.
  intros Hf Hd Hall. revert i acc.
  induction Hall as [|c rest Hc _ IH]; intros i acc Hlen.
  - simpl. unfold ret. rewrite !extend_units_nil, !app_nil_r.
    by destruct acc.
  - assert (forall du, data_units = Some du -> (i < length du)%nat) as Hi.
    { intros du Hdu. specialize (Hlen du Hdu). simpl in Hlen. lia. }
    assert (forall du, data_units = Some du ->
              (S i + length rest <= length du)%nat) as Hlen'.
    { intros du Hdu. specialize (Hlen du Hdu). simpl in Hlen. lia. }
    destruct (append_unit_extend (comp_to_read_units acc) data_units i
                (fun c => py_in c in_file) c rest Hi) as (ru & Hru & Hre).
    destruct (append_unit_extend (derived_components_units acc) data_units i
                (fun c => negb (py_in c in_file)) c rest Hi)
      as (du' & Hdu' & Hde).
    cbn [split_components]. unfold bind at 1, deref at 1. rewrite Hf.
    unfold raw_part, derived_part. cbn [List.filter].
    rewrite Hre, Hde. unfold available in Hc.
    destruct (py_in c in_file) eqn:Hcf; cbn [negb].
    + unfold bind at 1, lift at 1. rewrite Hru.
      rewrite IH by done. cbn [comp_to_read comp_to_read_units
        derived_to_compute derived_components_units].
      by rewrite <- app_assoc.
    + simpl in Hc. unfold bind at 1, deref at 1. rewrite Hd, Hc.
      unfold bind at 1, lift at 1. rewrite Hdu'.
      rewrite IH by done. cbn [comp_to_read comp_to_read_units
        derived_to_compute derived_components_units].
      by rewrite <- app_assoc.
Qed.

(** The loop stops at the first component that is neither in the file nor
    derived: the list of available components is built and shown in the
    message. *)
Lemma split_components_unknown self data_units i known c rest acc st
    in_file derived :
  lists st !! components_in_file self = Some in_file ->
  lists st !! derived_components self = Some derived ->
  Forall (fun c => available in_file derived c = true) known ->
  available in_file derived c = false ->
  (forall du, data_units = Some du ->
     (i + length known <= length du)%nat) ->
  split_components self data_units i (known ++ c :: rest)%list acc st
  = (Raise (ValueError
              [Text "Component '"; ArgStr c; Text "' not found. ";
               Text "Available components are ";
               ArgList (listed_components false (in_file ++ derived)%list);
               Text "."]),
     mk_state
       (<[fresh (dom (lists st))
          := listed_components false (in_file ++ derived)%list]> (lists st))
       (objs st) (log st)).
Proof.
  intros Hf Hd Hall Hc. revert i acc.
  induction Hall as [|k known Hk _ IH]; intros i acc Hlen.
  - cbn [app split_components]. unfold bind at 1, deref at 1. rewrite Hf.
    unfold available in Hc. apply orb_false_iff in Hc as [-> Hcd].
    unfold bind at 1, deref at 1. rewrite Hd, Hcd.
    unfold bind at 1.
    rewrite (get_list_of_available_components_spec _ _ _ _ _ Hf Hd).
    unfold bind, deref, raise. simpl. by rewrite lookup_insert_eq.
  - assert (forall du, data_units = Some du -> (i < length du)%nat) as Hi.
    { intros du Hdu. specialize (Hlen du Hdu). simpl in Hlen. lia. }
    assert (forall du, data_units = Some du ->
              (S i + length known <= length du)%nat) as Hlen'.
    { intros du Hdu. specialize (Hlen du Hdu). simpl in Hlen. lia. }
    destruct (append_unit_extend (comp_to_read_units acc) data_units i
                (fun c => py_in c in_file) k known Hi) as (ru & Hru & _).
    destruct (append_unit_extend (derived_components_units acc) data_units i
                (fun c => negb (py_in c in_file)) k known Hi)
      as (du' & Hdu' & _).
    rewrite <- app_comm_cons. cbn [split_components].
    unfold bind at 1, deref at 1. rewrite Hf. unfold available in Hk.
    destruct (py_in k in_file) eqn:Hkf.
    + unfold bind at 1, lift at 1. rewrite Hru. by apply IH.
    + simpl in Hk. unfold bind at 1, deref at 1. rewrite Hd, Hk.
      unfold bind at 1, lift at 1. rewrite Hdu'. by apply IH.
Qed.

(** *** Time steps and files *)

Lemma list_index_none x l : list_index x l = None <-> x ∉ l.
Proof.
  induction l as [|y l IH]; simpl.
  - split; [intros _; apply not_elem_of_nil | done].
  - rewrite not_elem_of_cons. destruct (Z.eqb_spec y x) as [->|Hne].
    + split; [done | by intros [? _]].
    + destruct (list_index x l); simpl.
      * split; [done|]. intros [_ Hx]. by apply IH in Hx.
      * split; [|done]. intros _. split; [done | by apply IH].
Qed.

(** [index] gives the position of the first occurrence. *)
Lemma list_index_some x l i :
  list_index x l = Some i ->
  l !! i = Some x /\ forall j, (j < i)%nat -> l !! j <> Some x.
Proof.
  revert i. induction l as [|y l IH]; intros i; simpl; [done|].
  destruct (Z.eqb_spec y x) as [->|Hne].
  - intros [= <-]. split; [done | lia].
  - destruct (list_index x l) as [k|]; simpl; [|done].
    intros [= <-]. destruct (IH k eq_refl) as [Hk Hfirst].
    split; [done|]. intros [|j] Hj; simpl; [congruence|].
    apply Hfirst. lia.
Qed.
(** *** Calls of the collaborators *)

Lemma state_eta st : mk_state (lists st) (objs st) (log st) = st.
Proof. by destruct st. Qed.

Lemma bind_assoc {A B C} (m : M A) (k1 : A -> M B) (k2 : B -> M C) st :
  bind (bind m k1) k2 st = bind m (fun a => bind (k1 a) k2) st.
Proof. unfold bind. by destruct (m st) as [[a|x] st1]. Qed.

Lemma bind_ext {A B} (m : M A) (k k' : A -> M B) st :
  (forall a st1, k a st1 = k' a st1) -> bind m k st = bind m k' st.
Proof. intros Hk. unfold bind. by destruct (m st) as [[a|x] st1]. Qed.

(** The exception, if any, that came back from a logged call. *)
Definition outcome_raised (ev : event) : option exn :=
  match ev with
  | ReadParticleData _ _ _ (Raise x) => Some x
  | ConvertUnits _ _ _ (Raise x) => Some x
  | Recipe _ _ (Raise x) => Some x
  | _ => None
  end.

(** [x] is the exception that the last call of [evs] raised. *)
Definition passed_on (x : exn) (evs : list event) : Prop :=
  exists evs0 ev, evs = (evs0 ++ [ev])%list /\ outcome_raised ev = Some x.

(** An event that, if it is a read, reads [file_path]. *)
Definition reads_only_from (file_path : string) (ev : event) : Prop :=
  match ev with
  | ReadParticleData f _ _ _ => f = file_path
  | _ => True
  end.

(** A computation that leaves the lists alone, logs only events that
    satisfy [P], and raises only an exception of its own, which satisfies
    [E], or the exception that its last call raised. *)
Definition runs {A} (P : event -> Prop) (E : exn -> Prop) (m : M A) : Prop :=
  forall st, exists o' evs,
    (m st).2 = mk_state (lists st) o' (log st ++ evs) /\
    Forall P evs /\
    forall x, (m st).1 = Raise x -> E x \/ passed_on x evs.

Lemma runs_ret {A} P E (a : A) : runs P E (ret a).
Proof.
  intros st. exists (objs st), []. simpl. rewrite app_nil_r, state_eta.
  split; [done|]. split; [constructor|]. by intros x [=].
Qed.

Lemma runs_raise {A} P (E : exn -> Prop) x : E x -> runs P E (@raise A x).
Proof.
  intros HE st. exists (objs st), []. simpl. rewrite app_nil_r, state_eta.
  split; [done|]. split; [constructor|]. intros y [= <-]. by left.
Qed.

Lemma runs_lift {A} P (E : exn -> Prop) (r : result A) :
  (forall x, r = Raise x -> E x) -> runs P E (lift r).
Proof.
  intros HE st. exists (objs st), []. simpl. rewrite app_nil_r, state_eta.
  split; [done|]. split; [constructor|]. intros y Hy. left. by apply HE.
Qed.

Lemma runs_call {A} (P : event -> Prop) E (f : external A) ev :
  (forall r, P (ev r)) ->
  (forall x, outcome_raised (ev (Raise x)) = Some x) ->
  runs P E (call f ev).
Proof.
  intros HP Hraise st. exists (f (objs st)).2, [ev (f (objs st)).1].
  split; [done|]. split; [by repeat constructor|].
  simpl. intros x Hx. right. exists [], (ev (f (objs st)).1).
  split; [done|]. rewrite Hx. apply Hraise.
Qed.

Lemma runs_set_item P (E : exn -> Prop) md key value :
  E TypeError -> runs P E (set_item md key value).
Proof.
  intros HE st. unfold set_item. destruct (metas (objs st) !! md) as [d|].
  - eexists _, []. simpl. rewrite app_nil_r.
    split; [done|]. split; [constructor|]. by intros x [=].
  - exists (objs st), []. simpl. rewrite app_nil_r, state_eta.
    split; [done|]. split; [constructor|]. intros y [= <-]. by left.
Qed.

Lemma runs_bind {A B} P E (m : M A) (k : A -> M B) :
  runs P E m -> (forall a, runs P E (k a)) -> runs P E (bind m k).
Proof.
  intros Hm Hk st. destruct (Hm st) as (o1 & evs1 & Hst & HP & Hx).
  unfold bind. destruct (m st) as [[a|x] st1]; simpl in *.
  - subst st1.
    destruct (Hk a (mk_state (lists st) o1 (log st ++ evs1)))
      as (o2 & evs2 & Hst2 & HP2 & Hx2). simpl in *.
    exists o2, (evs1 ++ evs2)%list. rewrite List.app_assoc.
    split; [done|]. split; [by apply Forall_app|].
    intros x Hr. destruct (Hx2 x Hr) as [?|(evs0 & ev & -> & ?)]; [by left|].
    right. exists (evs1 ++ evs0)%list, ev. by rewrite List.app_assoc.
  - exists o1, evs1. split; [done|]. split; [done|].
    intros y [= <-]. by apply Hx.
Qed.

Lemma runs_weaken {A} P (E E' : exn -> Prop) (m : M A) :
  (forall x, E x -> E' x) -> runs P E m -> runs P E' m.
Proof.
  intros HE Hm st. destruct (Hm st) as (o' & evs & Hst & HP & Hx).
  exists o', evs. split; [done|]. split; [done|].
  intros x Hr. destruct (Hx x Hr); auto.
Qed.

(** *** Reading and converting *)

(** A conversion that returned [out], on the objects [o]. *)
Definition conversion_ok (data : pdata) (components_list : list string)
    (data_units : option (list string)) (time_units : option string)
    (o : objects) (out : pdata) (o' : objects) : Prop :=
  match data_units with
  | Some us =>
      convert_particle_data_units data (dict_zip components_list us)
        time_units o = (Ok out, o')
  | None => out = data /\ o' = o
  end.

Definition convert_events (data : pdata) (components_list : list string)
    (data_units : option (list string)) (time_units : option string)
    (out : pdata) : list event :=
  match data_units with
  | Some us =>
      [ConvertUnits data (dict_zip components_list us) time_units (Ok out)]
  | None => []
  end.

Lemma convert_data_units_ok data components_list data_units time_units st
    out st' :
  _convert_data_units data components_list data_units time_units st
  = (Ok out, st') ->
  exists o',
    conversion_ok data components_list data_units time_units (objs st) out o'
    /\
    st' = mk_state (lists st) o'
            (log st
               ++ convert_events data components_list data_units time_units
                    out).
Proof.
  destruct data_units as [us|]; simpl.
  - unfold call.
    destruct (convert_particle_data_units _ _ _ _) as [r o'] eqn:Hconv.
    simpl. intros [= -> <-]. by exists o'.
  - unfold ret. intros [= <- <-]. exists (objs st).
    by rewrite app_nil_r, state_eta.
Qed.

Lemma runs_convert file_path E data components_list data_units time_units :
  runs (reads_only_from file_path) E
    (_convert_data_units data components_list data_units time_units).
Proof. destruct data_units; [by apply runs_call | apply runs_ret]. Qed.

Lemma get_file_data_ok self file_path components_list data_units time_units
    st out st' :
  _get_file_data self file_path components_list data_units time_units st
  = (Ok out, st') ->
  exists read o1 o2,
    read_particle_data file_path (species_name self) components_list (objs st)
    = (Ok read, o1) /\
    conversion_ok read components_list data_units time_units o1 out o2 /\
    st' = mk_state (lists st) o2
            (log st
               ++ ReadParticleData file_path (species_name self)
                    components_list (Ok read)
               :: convert_events read components_list data_units time_units
                    out).
Proof.
  unfold _get_file_data, bind at 1, call.
  destruct (read_particle_data _ _ _ _) as [[read|x] o1] eqn:Hread;
    simpl; [|done].
  intros (o2 & Hconv & ->)%convert_data_units_ok. simpl in *.
  exists read, o1, o2. by rewrite <- List.app_assoc.
Qed.

Lemma runs_get_file_data self file_path E components_list data_units
    time_units :
  runs (reads_only_from file_path) E
    (_get_file_data self file_path components_list data_units time_units).
Proof.
  apply runs_bind; [by apply runs_call | intros; apply runs_convert].
Qed.

(** *** Derived components *)

(** The requirements of a definition are fetched in SI units. *)
Definition si_units (d : data_def) : list string :=
  replicate (length (requirements d)) "SI".

(** What computing one derived component adds to the log when its three
    calls return: the read of the requirements, their conversion to SI and
    the recipe. *)
Definition derive_events (self : species) (file_path : string)
    (time_units : option string) (d : data_def) (read si : pdata)
    (derived_data : array) : list event :=
  [ReadParticleData file_path (species_name self) (requirements d) (Ok read);
   ConvertUnits read (dict_zip (requirements d) (si_units d)) time_units
     (Ok si);
   Recipe (name d) si (Ok derived_data)].

Definition si_chunk (self : species) (file_path : string)
    (time_units : option string) (n : string) (chunk : list event) : Prop :=
  exists d read si derived_data,
    get_definition n = Ok d /\ name d = n /\
    chunk = derive_events self file_path time_units d read si derived_data.

(** The exceptions that the loop over the derived components raises
    itself. *)
Definition own_error (names : list string) (x : exn) : Prop :=
  x = IndexError \/ (exists key, x = KeyError key) \/ x = TypeError \/
  exists n, n ∈ names /\ get_definition n = Raise x.

Lemma own_error_mono (names names' : list string) x :
  (forall n, n ∈ names -> n ∈ names') ->
  own_error names x -> own_error names' x.
Proof.
  intros Hsub [?|[?|[?|(n & Hn & Hdef)]]]; unfold own_error; auto.
  right; right; right. exists n. auto.
Qed.

Lemma runs_derive_one self file_path n time_units dict :
  runs (reads_only_from file_path) (own_error [n])
    (derive_one self file_path n time_units dict).
Proof.
  unfold derive_one. apply runs_bind.
  { apply runs_lift. intros x Hx. right; right; right. exists n.
    split; [by left | done]. }
  intros d. apply runs_bind; [apply runs_get_file_data|]. intros si.
  apply runs_bind; [by apply runs_call|]. intros derived_data.
  apply runs_bind.
  { destruct (requirements d); [apply runs_raise; by left | apply runs_ret]. }
  intros first. apply runs_bind.
  { destruct (si !! first); [apply runs_ret | apply runs_raise].
    right; left. by eexists. }
  intros entry. apply runs_bind; [|intros; apply runs_ret].
  apply runs_set_item. right; right; by left.
Qed.

Lemma runs_derive_all self file_path names time_units dict :
  runs (reads_only_from file_path) (own_error names)
    (derive_all self file_path names time_units dict).
Proof.
  revert dict. induction names as [|n rest IH]; intros dict.
  - apply runs_ret.
  - cbn [derive_all]. apply runs_bind.
    + eapply runs_weaken; [|apply runs_derive_one].
      intros x. apply own_error_mono.
      intros n' ->%list_elem_of_singleton. by left.
    + intros d. eapply runs_weaken; [|apply IH].
      intros x. apply own_error_mono. intros n' Hn'. by right.
Qed.

Lemma derive_one_ok self file_path n time_units dict st dict' st' :
  derive_one self file_path n time_units dict st = (Ok dict', st') ->
  exists d first rest read si data0 md_ref md derived_data o1 o2 o3,
    get_definition n = Ok d /\
    requirements d = first :: rest /\
    read_particle_data file_path (species_name self) (requirements d)
      (objs st) = (Ok read, o1) /\
    convert_particle_data_units read
      (dict_zip (requirements d) (si_units d)) time_units o1 = (Ok si, o2) /\
    recipe d si o2 = (Ok derived_data, o3) /\
    si !! first = Some (data0, md_ref) /\
    metas o3 !! md_ref = Some md /\
    dict' = <[n := (derived_data, md_ref)]> dict /\
    st' = mk_state (lists st)
            (mk_objects (<[md_ref := <["units" := units d]> md]> (metas o3))
               (ext o3))
            (log st
               ++ derive_events self file_path time_units d read si
                    derived_data).
Proof.
  unfold derive_one, bind at 1, lift.
  destruct (get_definition n) as [d|x] eqn:Hdef; [|done].
  pose proof (get_definition_name _ _ Hdef) as Hname.
  unfold bind at 1.
  destruct (_get_file_data _ _ _ _ _ _) as [[si|x] st1] eqn:Hfetch; [|done].
  apply get_file_data_ok in Hfetch as (read & o1 & o2 & Hread & Hconv & ->).
  unfold conversion_ok in Hconv. unfold bind at 1, call. cbn [objs lists log].
  destruct (recipe d si o2) as [[derived_data|x] o3] eqn:Hrec;
    cbn [fst snd]; [|done].
  destruct (requirements d) as [|first rest] eqn:Hreq;
    [by unfold bind, raise|].
  unfold bind at 1, ret.
  destruct (si !! first) as [[data0 md_ref]|] eqn:Hfirst;
    [|by unfold bind, raise].
  unfold bind at 1, bind at 1, set_item. cbn [objs lists log snd].
  destruct (metas o3 !! md_ref) as [md|] eqn:Hmd; [|done].
  intros [= <- <-].
  exists d, first, rest, read, si, data0, md_ref, md, derived_data, o1, o2, o3.
  rewrite Hname. unfold derive_events, si_units, convert_events.
  rewrite Hreq, Hname, <- !List.app_assoc. done.
Qed.

(** A completed loop has logged the three calls of every name, in order,
    and holds for every name the array that its recipe returned. *)
Lemma derive_all_ok self file_path names time_units dict st dict' st' :
  derive_all self file_path names time_units dict st = (Ok dict', st') ->
  exists chunks,
    lists st' = lists st /\
    log st' = (log st ++ concat chunks)%list /\
    Forall2 (si_chunk self file_path time_units) names chunks /\
    (forall n, n ∈ names ->
       exists si derived_data md_ref,
         dict' !! n = Some (derived_data, md_ref) /\
         Recipe n si (Ok derived_data) ∈ concat chunks) /\
    (forall k, k ∉ names -> dict' !! k = dict !! k).
Proof.
  revert dict st. induction names as [|n rest IH]; intros dict st Hrun.
  - simpl in Hrun. unfold ret in Hrun. simplify_eq. exists [].
    simpl. rewrite app_nil_r. split; [done|]. split; [done|].
    split; [constructor|]. split; [|done]. by intros n ?%elem_of_nil.
  - cbn [derive_all] in Hrun. unfold bind at 1 in Hrun.
    destruct (derive_one _ _ _ _ _ _) as [[dict1|x] st1] eqn:Hone; [|done].
    apply derive_one_ok in Hone
      as (d & first & rest' & read & si & data0 & md_ref & md & derived_data
          & o1 & o2 & o3 & Hdef & Hreq & Hread & Hconv & Hrec & Hfirst & Hmd
          & -> & ->).
    pose proof (get_definition_name _ _ Hdef) as Hname.
    apply IH in Hrun as (chunks & Hlists & Hlog & Hchunks & Hin & Hout).
    cbn [lists log] in *.
    exists (derive_events self file_path time_units d read si derived_data
              :: chunks).
    split; [done|]. split; [by rewrite Hlog, <- List.app_assoc|].
    split; [constructor; [by exists d, read, si, derived_data | done]|].
    split.
    + intros n' [->|Hn']%elem_of_cons.
      * destruct (decide (n ∈ rest)) as [Hr|Hr].
        { destruct (Hin n Hr) as (si' & a' & r' & Hlook & Hev).
          exists si', a', r'. split; [done|].
          cbn [concat]. apply elem_of_app. by right. }
        exists si, derived_data, md_ref.
        split; [by rewrite (Hout _ Hr), lookup_insert_eq|].
        cbn [concat]. apply elem_of_app. left. unfold derive_events.
        rewrite Hname. by do 2 right; left.
      * destruct (Hin n' Hn') as (si' & a' & r' & Hlook & Hev).
        exists si', a', r'. split; [done|].
        cbn [concat]. apply elem_of_app. by right.
    + intros k [Hkn Hk]%not_elem_of_cons.
      rewrite (Hout _ Hk), lookup_insert_ne; [done | congruence].
Qed.


(** *** The anatomy of a valid call of [get_data] *)

Lemma extend_units_start (data_units : option (list string)) keep
    components_list :
  extend_units (if bool_decide (is_Some data_units) then Some [] else None)
    data_units 0 keep components_list
  = selected_units keep components_list <$> data_units.
Proof. by destruct data_units. Qed.

(** What [get_data] does with the raw data that the reader returned. *)
Definition after_read (self : species) (file_path : string)
    (time_units : option string) (raw : list string)
    (raw_units : option (list string)) (der : list string)
    (der_units : option (list string)) (read : pdata) : M pdata :=
  folder_data <- _convert_data_units read raw raw_units time_units ;;
  derived_data <- _calculate_derived_data self file_path der der_units
                    time_units ;;
  ret (derived_data ∪ folder_data).

Lemma runs_after_read self file_path time_units raw raw_units der der_units
    read :
  runs (reads_only_from file_path) (own_error der)
    (after_read self file_path time_units raw raw_units der der_units read).
Proof.
  apply runs_bind; [apply runs_convert|]. intros folder_data.
  apply runs_bind; [|intros; apply runs_ret].
  apply runs_bind; [apply runs_derive_all | intros; apply runs_convert].
Qed.

(** When every requested component is available and the units, if given,
    are as many as the components, [get_data] resolves the file, reads the
    raw components and goes on with what the reader returned. *)
Lemma get_data_valid self time_step components_list data_units time_units st
    in_file derived :
  lists st !! components_in_file self = Some in_file ->
  lists st !! derived_components self = Some derived ->
  Forall (fun c => available in_file derived c = true) components_list ->
  (forall us, data_units = Some us -> length components_list = length us) ->
  get_data self time_step components_list data_units time_units st
  = match _get_file_path self time_step with
    | Raise x => (Raise x, st)
    | Ok file_path =>
        let raw := raw_part in_file components_list in
        let raw_units :=
          selected_units (fun c => py_in c in_file) components_list
            <$> data_units in
        let der := derived_part in_file components_list in
        let der_units :=
          selected_units (fun c => negb (py_in c in_file)) components_list
            <$> data_units in
        bind
          (call (read_particle_data file_path (species_name self) raw)
             (ReadParticleData file_path (species_name self) raw))
          (after_read self file_path time_units raw raw_units der der_units)
          st
    end.
Proof.
  intros Hf Hd Hall Hunits. unfold get_data.
  assert (bool_decide (is_Some data_units)
          && negb (length components_list
                   =? from_option length 0%nat data_units)%nat = false) as ->.
  { destruct data_units as [us|]; [|done]. simpl.
    by rewrite (Hunits us eq_refl), Nat.eqb_refl. }
  unfold bind at 1.
  rewrite (split_components_ok _ _ _ _ _ _ _ _ Hf Hd Hall).
  2:{ intros du Hdu. rewrite (Hunits du Hdu). simpl. lia. }
  cbn [comp_to_read comp_to_read_units derived_to_compute
       derived_components_units app].
  rewrite !extend_units_start.
  unfold bind at 1, lift.
  destruct (_get_file_path self time_step) as [file_path|x]; [|done].
  cbv zeta. unfold _get_file_data. by rewrite bind_assoc.
Qed.

(** A list of components is all available, or has a first one that is
    not. *)
Lemma first_unavailable in_file derived (components_list : list string) :
  Forall (fun c => available in_file derived c = true) components_list \/
  exists known c rest,
    components_list = (known ++ c :: rest)%list /\
    Forall (fun c => available in_file derived c = true) known /\
    available in_file derived c = false.
Proof.
  induction components_list as [|c l IH]; [by left|].
  destruct (available in_file derived c) eqn:Hc.
  - destruct IH as [IH|(known & c' & rest & -> & Hk & Hc')].
    + left. by constructor.
    + right. exists (c :: known), c', rest. split; [done|].
      split; [by constructor | done].
  - right. by exists [], c, l.
Qed.

Lemma raw_part_all in_file (components_list : list string) :
  Forall (fun c => c ∈ in_file) components_list ->
  raw_part in_file components_list = components_list /\
  derived_part in_file components_list = [].
Proof.
  unfold raw_part, derived_part.
  induction 1 as [|c l Hc%py_in_true _ [IHr IHd]]; [done|].
  simpl. by rewrite Hc, IHr, IHd.
Qed.

(** A call for raw components without units is the call of the reader: it
    returns what the reader returns, raises what the reader raises, and
    logs the read alone. *)
Lemma get_data_raw self time_step components_list time_units st in_file
    derived file_path :
  lists st !! components_in_file self = Some in_file ->
  lists st !! derived_components self = Some derived ->
  Forall (fun c => c ∈ in_file) components_list ->
  _get_file_path self time_step = Ok file_path ->
  get_data self time_step components_list None time_units st
  = call (read_particle_data file_path (species_name self) components_list)
      (ReadParticleData file_path (species_name self) components_list) st.
Proof.
  intros Hf Hd Hraw Hpath.
  rewrite (get_data_valid _ _ _ _ _ _ in_file derived Hf Hd); [|
    eapply Forall_impl; [exact Hraw|]; intros c Hc%py_in_true;
      unfold available; by rewrite Hc | done].
  rewrite Hpath. destruct (raw_part_all _ _ Hraw) as [-> ->].
  cbv zeta. unfold bind, call.
  destruct (read_particle_data _ _ _ _) as [[read|x] o1]; [|done].
  cbn [fst snd]. unfold after_read, _calculate_derived_data, bind. simpl.
  unfold ret. by rewrite (left_id_L ∅ (∪)).
Qed.

(** [dict(zip(requirements, ['SI'] * len(requirements)))] asks for SI for
    each requirement. *)
Lemma dict_zip_constant (keys : list string) (v : string) k
    (m : gmap string string) :
  fold_left (fun m kv => <[kv.1 := kv.2]> m)
    (combine keys (replicate (length keys) v)) m !! k
  = if decide (k ∈ keys) then Some v else m !! k.
Proof.
  revert m. induction keys as [|k' keys IH]; intros m.
  - destruct (decide (k ∈ [])) as [H%elem_of_nil|]; done.
  - cbn [length replicate combine fold_left fst snd]. rewrite IH.
    destruct (decide (k ∈ keys)) as [Hin|Hnin],
             (decide (k ∈ k' :: keys)) as [Hin'|Hnin']; try done.
    + exfalso. apply Hnin'. by right.
    + apply elem_of_cons in Hin' as [->|?]; [|done].
      by rewrite lookup_insert_eq.
    + apply not_elem_of_cons in Hnin' as [Hne _].
      by rewrite lookup_insert_ne.
Qed.

Lemma si_for_each_requirement (d : data_def) r :
  r ∈ requirements d ->
  dict_zip (requirements d) (si_units d) !! r = Some "SI".
Proof.
  intros Hr. unfold dict_zip, si_units. rewrite dict_zip_constant.
  by destruct (decide (r ∈ requirements d)).
Qed.
(** *** Resolving the time step *)

Lemma get_file_path_present self time_step :
  time_step ∈ timesteps self ->
  length (timesteps self) = length (species_files self) ->
  exists i file_path,
    timesteps self !! i = Some time_step /\
    (forall j, (j < i)%nat -> timesteps self !! j <> Some time_step) /\
    species_files self !! i = Some file_path /\
    _get_file_path self time_step = Ok file_path.
Proof.
  intros Hin Hlen. unfold _get_file_path.
  destruct (list_index time_step (timesteps self)) as [i|] eqn:Hi.
  - destruct (list_index_some _ _ _ Hi) as [Hts Hfirst].
    destruct (lookup_lt_is_Some_2 (species_files self) i) as [f Hf].
    { rewrite <- Hlen. by eapply lookup_lt_Some. }
    exists i, f. by rewrite Hf.
  - by apply list_index_none in Hi.
Qed.

(** C4.  Take a call of [get_data] whose components are all available (and
    whose units, if given, are as many as the components).
    - If [time_step] is not in [timesteps], the call raises the
      [ValueError] of [list.index] ("... is not in list") and leaves the
      state as it was.
    - If [time_step] is in [timesteps], which is as long as
      [species_files], the file is [species_files[i]] for the position [i]
      of the first occurrence of [time_step] in [timesteps]; the call reads
      the raw components from that file first, and every later read is
      from that file too. *)
Theorem time_step_resolves_by_position
    (self : species) (time_step : Z) (components_list : list string)
    (data_units : option (list string)) (time_units : option string)
    (st : state) (in_file derived : list string)
    (Hin_file : lists st !! components_in_file self = Some in_file)
    (Hderived : lists st !! derived_components self = Some derived)
    (Hall : Forall (fun c => available in_file derived c = true)
              components_list)
    (Hunits : forall us, data_units = Some us ->
                length components_list = length us) :
  (time_step ∉ timesteps self ->
   get_data self time_step components_list data_units time_units st
   = (Raise (ValueError [ArgInt time_step; Text " is not in list"]), st)) /\
  (time_step ∈ timesteps self ->
   length (timesteps self) = length (species_files self) ->
   exists i file_path,
     timesteps self !! i = Some time_step /\
     (forall j, (j < i)%nat -> timesteps self !! j <> Some time_step) /\
     species_files self !! i = Some file_path /\
     _get_file_path self time_step = Ok file_path /\
     exists outcome evs,
       log (get_data self time_step components_list data_units time_units
              st).2
       = (log st
            ++ ReadParticleData file_path (species_name self)
                 (raw_part in_file components_list) outcome :: evs)%list /\
       outcome
       = (read_particle_data file_path (species_name self)
            (raw_part in_file components_list) (objs st)).1 /\
       Forall (reads_only_from file_path) evs).
Proof.
  rewrite (get_data_valid _ _ _ _ _ _ _ _ Hin_file Hderived Hall Hunits).
  split.
  - intros Habsent%list_index_none. unfold _get_file_path.
    by rewrite Habsent.
  - intros Hpresent Hlen.
    destruct (get_file_path_present _ _ Hpresent Hlen)
      as (i & file_path & Hi & Hfirst & Hfile & Hpath).
    exists i, file_path. rewrite Hpath. do 4 (split; [done|]).
    cbv zeta. unfold bind at 1, call.
    destruct (read_particle_data _ _ _ _) as [[read|x] o1]; cbn [fst snd].
    + match goal with
      | |- context [after_read ?a ?b ?c ?d ?e ?f ?g ?h ?s] =>
          destruct (runs_after_read a b c d e f g h s)
            as (o' & evs & -> & Hevs & _)
      end.
      exists (Ok read), evs. cbn [lists log].
      by rewrite <- List.app_assoc.
    + exists (Raise x), []. by repeat split.
Qed.

(** *** Unknown components *)

Lemma listed_components_elem all x :
  x <> "tag" -> x ∈ listed_components false all <-> x ∈ all.
Proof.
  intros Hx. destruct (decide ("tag" ∈ all)) as [Htag|Htag].
  - destruct (first_occurrence _ _ Htag) as (pre & post & -> & Hpre).
    rewrite listed_components_drops_first_tag by done.
    rewrite !elem_of_app, elem_of_cons.
    split; [intros [?|?]; auto | intros [?|[?|?]]; [auto | done | auto]].
  - by rewrite listed_components_no_tag.
Qed.

Lemma listed_components_tag_gone all :
  NoDup all -> "tag" ∉ listed_components false all.
Proof.
  intros Hnd. destruct (decide ("tag" ∈ all)) as [Htag|Htag].
  - destruct (first_occurrence _ _ Htag) as (pre & post & -> & Hpre).
    rewrite listed_components_drops_first_tag by done.
    apply NoDup_app in Hnd as (_ & _ & Hpost).
    apply NoDup_cons in Hpost as [Hpost _].
    rewrite elem_of_app. tauto.
  - by rewrite listed_components_no_tag.
Qed.

Lemma get_data_first_unknown self time_step known c rest data_units
    time_units st in_file derived :
  lists st !! components_in_file self = Some in_file ->
  lists st !! derived_components self = Some derived ->
  Forall (fun c => available in_file derived c = true) known ->
  available in_file derived c = false ->
  (forall us, data_units = Some us ->
     length (known ++ c :: rest)%list = length us) ->
  get_data self time_step (known ++ c :: rest)%list data_units time_units st
  = (Raise (ValueError
              [Text "Component '"; ArgStr c; Text "' not found. ";
               Text "Available components are ";
               ArgList (listed_components false (in_file ++ derived)%list);
               Text "."]),
     mk_state
       (<[fresh (dom (lists st))
          := listed_components false (in_file ++ derived)%list]> (lists st))
       (objs st) (log st)).
Proof.
  intros Hf Hd Hknown Hc Hunits. unfold get_data.
  assert (bool_decide (is_Some data_units)
          && negb (length (known ++ c :: rest)%list
                   =? from_option length 0%nat data_units)%nat = false)
    as ->.
  { destruct data_units as [us|]; [|done]. simpl.
    by rewrite (Hunits us eq_refl), Nat.eqb_refl. }
  unfold bind at 1.
  rewrite (split_components_unknown _ _ _ _ _ _ _ _ _ _ Hf Hd Hknown Hc);
    [done|].
  intros du Hdu. rewrite <- (Hunits du Hdu), length_app. simpl. lia.
Qed.

(** C5.  Take a call of [get_data] (whose units, if given, are as many as
    the components) in which some requested name is neither in
    [components_in_file] nor in [derived_components].  The call raises the
    [ValueError] "Component '...' not found. Available components are
    ...", for the first such name.  The list in the message is a new list:
    [components_in_file + derived_components] with the first 'tag' removed
    (the call asks for the list without tags).  So every available name
    other than 'tag' is shown, and 'tag' is not shown when the available
    names are distinct.  Nothing is read, converted or computed. *)
Theorem unknown_component_lists_available
    (self : species) (time_step : Z) (components_list : list string)
    (data_units : option (list string)) (time_units : option string)
    (st : state) (in_file derived : list string)
    (Hin_file : lists st !! components_in_file self = Some in_file)
    (Hderived : lists st !! derived_components self = Some derived)
    (Hunits : forall us, data_units = Some us ->
                length components_list = length us)
    (Hunknown : exists c,
       c ∈ components_list /\ (c ∉ in_file) /\ (c ∉ derived)) :
  exists c shown,
    c ∈ components_list /\ (c ∉ in_file) /\ (c ∉ derived) /\
    get_data self time_step components_list data_units time_units st
    = (Raise (ValueError
                [Text "Component '"; ArgStr c; Text "' not found. ";
                 Text "Available components are "; ArgList shown;
                 Text "."]),
       mk_state (<[fresh (dom (lists st)) := shown]> (lists st)) (objs st)
         (log st)) /\
    shown = listed_components false (in_file ++ derived)%list /\
    (forall x, x <> "tag" -> x ∈ shown <-> x ∈ in_file \/ x ∈ derived) /\
    (NoDup (in_file ++ derived)%list -> "tag" ∉ shown) /\
    ("tag" ∉ (in_file ++ derived)%list -> shown = (in_file ++ derived)%list).
Proof.
  destruct Hunknown as (c0 & Hc0 & Hc0f & Hc0d).
  destruct (first_unavailable in_file derived components_list)
    as [Hall|(known & c & rest & Heq & Hknown & Hc)].
  { exfalso. rewrite Forall_forall in Hall. specialize (Hall c0 Hc0).
    unfold available in Hall. apply orb_true_iff in Hall as [H|H];
      apply py_in_true in H; done. }
  unfold available in Hc. apply orb_false_iff in Hc as [Hcf Hcd].
  exists c, (listed_components false (in_file ++ derived)%list).
  split; [rewrite Heq; apply elem_of_app; right; by left|].
  split; [by apply py_in_false|]. split; [by apply py_in_false|].
  split; [|split; [done|split; [|split]]].
  - rewrite Heq. apply (get_data_first_unknown _ _ _ _ _ _ _ _ in_file derived);
      try done.
    + unfold available. by rewrite Hcf, Hcd.
    + by rewrite <- Heq.
  - intros x Hx. by rewrite listed_components_elem, elem_of_app.
  - apply listed_components_tag_gone.
  - apply listed_components_no_tag.
Qed.
(** *** Raw components without units *)

(** C9.  Take a call [get_data(time_step, components_list)] without
    [data_units], in which every requested name is in
    [components_in_file] and the time step resolves to [file_path], and let
    the reader return exactly the components it is asked for.  The call
    returns the dictionary that the reader returned for these components:
    its keys are the requested names and every tuple, with its array and
    its metadata object, is the reader's.  The objects are left as the
    reader left them, so the metadata and their 'units' are the reader's,
    and the log gains the read alone, no unit conversion. *)
Theorem raw_components_returned_as_read
    (self : species) (time_step : Z) (components_list : list string)
    (time_units : option string) (st : state)
    (in_file derived : list string) (file_path : string)
    (read : pdata) (o' : objects)
    (Hin_file : lists st !! components_in_file self = Some in_file)
    (Hderived : lists st !! derived_components self = Some derived)
    (Hraw : Forall (fun c => c ∈ in_file) components_list)
    (Hpath : _get_file_path self time_step = Ok file_path)
    (Hread :
       read_particle_data file_path (species_name self) components_list
         (objs st) = (Ok read, o'))
    (Hreader : dom read = list_to_set components_list) :
  exists out,
    get_data self time_step components_list None time_units st
    = (Ok out,
       mk_state (lists st) o'
         (log st
            ++ [ReadParticleData file_path (species_name self)
                  components_list (Ok read)])) /\
    out = read /\
    dom out = list_to_set components_list /\
    (forall c, c ∈ components_list ->
       exists data md_ref, out !! c = Some (data, md_ref) /\
         read !! c = Some (data, md_ref)).
Proof.
  exists read. split.
  { rewrite (get_data_raw _ _ _ _ _ _ _ _ Hin_file Hderived Hraw Hpath).
    unfold call. by rewrite Hread. }
  split; [done|]. split; [done|]. intros c Hc.
  assert (c ∈ dom read) as [[data md_ref] Hlook]%elem_of_dom.
  { rewrite Hreader. by apply elem_of_list_to_set. }
  by exists data, md_ref.
Qed.

(** *** Successful calls of [get_data] *)

Lemma derived_part_elem in_file (components_list : list string) n :
  n ∈ derived_part in_file components_list <->
  n ∈ components_list /\ (n ∉ in_file).
Proof.
  unfold derived_part. rewrite !list_elem_of_In, filter_In.
  rewrite negb_true_iff, py_in_false. by rewrite list_elem_of_In.
Qed.

(** A call that returns has passed both checks, has resolved its file, and
    the reader, the conversions and the loop over the derived components
    have all returned. *)
Lemma get_data_ok_inv self time_step components_list data_units time_units
    st st' out in_file derived :
  lists st !! components_in_file self = Some in_file ->
  lists st !! derived_components self = Some derived ->
  get_data self time_step components_list data_units time_units st
  = (Ok out, st') ->
  exists file_path read o1 folder_data o2 dict st3 derived_data o4,
    _get_file_path self time_step = Ok file_path /\
    let raw := raw_part in_file components_list in
    let raw_units :=
      selected_units (fun c => py_in c in_file) components_list
        <$> data_units in
    let der := derived_part in_file components_list in
    let der_units :=
      selected_units (fun c => negb (py_in c in_file)) components_list
        <$> data_units in
    read_particle_data file_path (species_name self) raw (objs st)
    = (Ok read, o1) /\
    conversion_ok read raw raw_units time_units o1 folder_data o2 /\
    derive_all self file_path der time_units ∅
      (mk_state (lists st) o2
         (log st
            ++ ReadParticleData file_path (species_name self) raw (Ok read)
            :: convert_events read raw raw_units time_units folder_data))
    = (Ok dict, st3) /\
    conversion_ok dict der der_units time_units (objs st3) derived_data o4 /\
    st' = mk_state (lists st3) o4
            (log st3
               ++ convert_events dict der der_units time_units derived_data)
    /\
    out = derived_data ∪ folder_data.
Proof.
  intros Hf Hd Hrun.
  assert (forall us, data_units = Some us ->
            length components_list = length us) as Hunits.
  { intros us ->.
    destruct (decide (length components_list = length us)) as [|Hne];
      [done|].
    destruct (length_check_raises self time_step components_list us
                time_units st Hne) as (e & He & _). congruence. }
  destruct (first_unavailable in_file derived components_list)
    as [Hall|(known & c & rest & Heq & Hknown & Hc)].
  2:{ subst components_list.
      rewrite (get_data_first_unknown _ _ _ _ _ _ _ _ _ _
                 Hf Hd Hknown Hc Hunits) in Hrun. done. }
  rewrite (get_data_valid _ _ _ _ _ _ _ _ Hf Hd Hall Hunits) in Hrun.
  destruct (_get_file_path self time_step) as [file_path|x]; [|done].
  cbv zeta in Hrun. unfold bind at 1, call in Hrun.
  destruct (read_particle_data _ _ _ _) as [[read|x] o1] eqn:Hread;
    cbn [fst snd] in Hrun; [|done].
  unfold after_read, bind at 1 in Hrun.
  destruct (_convert_data_units _ _ _ _ _) as [[folder_data|x] st2] eqn:Hc1;
    [|done].
  apply convert_data_units_ok in Hc1 as (o2 & Hconv1 & ->).
  cbn [objs lists log] in *.
  unfold bind at 1, _calculate_derived_data, bind at 1 in Hrun.
  destruct (derive_all _ _ _ _ _ _) as [[dict|x] st3] eqn:Hloop; [|done].
  destruct (_convert_data_units _ _ _ _ _) as [[derived_data|x] st4] eqn:Hc2;
    [|done].
  apply convert_data_units_ok in Hc2 as (o4 & Hconv2 & ->).
  unfold ret in Hrun. injection Hrun as <- <-.
  exists file_path, read, o1, folder_data, o2, dict, st3, derived_data, o4.
  cbv zeta. rewrite <- List.app_assoc in Hloop. by repeat split.
Qed.

(** C3.  Take a call of [get_data] that returns.  Its log is, in order: the
    read of the raw components (and their conversion when units were
    given); for every requested derived component the read of all its
    requirements from the same file, their conversion with the target unit
    'SI' for each requirement, and its recipe on what that conversion
    returned; and last, only when units were given, one conversion of the
    dictionary of derived results to the caller's units.  That dictionary
    holds for every derived component an array that its recipe returned.
    The caller's units occur in no call made for a derived component before
    that last one. *)
Theorem requirements_fetched_in_si
    (self : species) (time_step : Z) (components_list : list string)
    (data_units : option (list string)) (time_units : option string)
    (st st' : state) (out : pdata) (in_file derived : list string)
    (Hin_file : lists st !! components_in_file self = Some in_file)
    (Hderived : lists st !! derived_components self = Some derived)
    (Hrun : get_data self time_step components_list data_units time_units st
            = (Ok out, st')) :
  exists file_path read folder_data chunks dict derived_data,
    _get_file_path self time_step = Ok file_path /\
    let raw := raw_part in_file components_list in
    let raw_units :=
      selected_units (fun c => py_in c in_file) components_list
        <$> data_units in
    let der := derived_part in_file components_list in
    let der_units :=
      selected_units (fun c => negb (py_in c in_file)) components_list
        <$> data_units in
    log st'
    = (log st
         ++ ReadParticleData file_path (species_name self) raw (Ok read)
         :: convert_events read raw raw_units time_units folder_data
         ++ concat chunks
         ++ convert_events dict der der_units time_units derived_data)%list /\
    Forall2
      (fun n chunk =>
         exists d fetched si derived_array,
           get_definition n = Ok d /\ name d = n /\
           chunk
           = [ReadParticleData file_path (species_name self) (requirements d)
                (Ok fetched);
              ConvertUnits fetched (dict_zip (requirements d) (si_units d))
                time_units (Ok si);
              Recipe n si (Ok derived_array)] /\
           (forall r, r ∈ requirements d ->
              dict_zip (requirements d) (si_units d) !! r = Some "SI"))
      der chunks /\
    (forall n, n ∈ components_list -> n ∉ in_file ->
       exists si derived_array md_ref,
         dict !! n = Some (derived_array, md_ref) /\
         Recipe n si (Ok derived_array) ∈ concat chunks) /\
    out = derived_data ∪ folder_data.
Proof.
  destruct (get_data_ok_inv _ _ _ _ _ _ _ _ _ _ Hin_file Hderived Hrun)
    as (file_path & read & o1 & folder_data & o2 & dict & st3 & derived_data
        & o4 & Hpath & Hread & Hconv1 & Hloop & Hconv2 & -> & ->).
  apply derive_all_ok in Hloop as (chunks & _ & Hlog & Hchunks & Hin & _).
  exists file_path, read, folder_data, chunks, dict, derived_data.
  split; [done|]. cbv zeta. cbn [log] in *.
  split; [by rewrite Hlog, <- !List.app_assoc|].
  split; [|split; [|done]].
  - eapply Forall2_impl; [exact Hchunks|].
    intros n chunk (d & fetched & si & arr & Hdef & Hname & ->).
    exists d, fetched, si, arr. split; [done|]. split; [done|].
    split; [unfold derive_events; by rewrite Hname|].
    apply si_for_each_requirement.
  - intros n Hn Hnf. apply Hin. by apply derived_part_elem.
Qed.


(** *** Listing the components again and again *)

(** A caller that asks for the list of available components once for every
    flag in [flags] and drops the answers. *)
Fixpoint list_components_repeatedly (self : species) (flags : list bool)
  : M unit :=
  match flags with
  | [] => ret tt
  | include_tags :: rest =>
      get_list_of_available_components self include_tags ;;;
      list_components_repeatedly self rest
  end.

Lemma fresh_list_is_new (st : state) : lists st !! fresh (dom (lists st)) = None.
Proof. apply not_elem_of_dom, is_fresh. Qed.

Lemma list_components_repeatedly_spec self flags st in_file derived :
  lists st !! components_in_file self = Some in_file ->
  lists st !! derived_components self = Some derived ->
  exists st',
    list_components_repeatedly self flags st = (Ok tt, st') /\
    log st' = log st /\
    objs st' = objs st /\
    lists st ⊆ lists st'.
Proof.
  revert st. induction flags as [|b flags IH]; intros st Hf Hd.
  - by exists st.
  - cbn [list_components_repeatedly]. unfold bind at 1.
    rewrite (get_list_of_available_components_spec _ _ _ _ _ Hf Hd).
    pose proof (fresh_list_is_new st) as Hnew.
    set (l := fresh (dom (lists st))) in *.
    set (st1 := mk_state _ _ _).
    assert (lists st ⊆ lists st1) as Hsub by by apply insert_subseteq.
    destruct (IH st1) as (st' & Hrun & Hlog & Hobjs & Hsub').
    { by eapply lookup_weaken. }
    { by eapply lookup_weaken. }
    exists st'. do 3 (split; [done|]). by etransitivity.
Qed.

(** C10.  Let the two lists of a species be [in_file] and [derived].
    - A call of [get_list_of_available_components] returns a list that did
      not exist before, different from both lists of the species, holding
      [in_file + derived], without its first 'tag' when [include_tags] is
      false and 'tag' occurs; every list that existed keeps its content,
      nothing is logged and no other object changes.
    - After any number of such calls, with any flags, both lists of the
      species are as before, no object of the reader, the converter or the
      recipes has changed, and if 'tag' is in [components_in_file] a call
      [get_data(time_step, ['tag'])] for a time step with a file is still
      the read of 'tag': it returns what the reader returns (and raises
      what the reader raises). *)
Theorem listing_components_leaves_species_unchanged
    (self : species) (flags : list bool) (st : state)
    (in_file derived : list string)
    (Hin_file : lists st !! components_in_file self = Some in_file)
    (Hderived : lists st !! derived_components self = Some derived) :
  (forall include_tags, exists new_list,
     get_list_of_available_components self include_tags st
     = (Ok new_list,
        mk_state
          (<[new_list
             := listed_components include_tags (in_file ++ derived)%list]>
             (lists st))
          (objs st) (log st)) /\
     lists st !! new_list = None /\
     new_list <> components_in_file self /\
     new_list <> derived_components self) /\
  listed_components true (in_file ++ derived)%list = (in_file ++ derived)%list
  /\
  (forall pre post,
     (in_file ++ derived)%list = (pre ++ "tag" :: post)%list -> "tag" ∉ pre ->
     listed_components false (in_file ++ derived)%list = (pre ++ post)%list)
  /\
  ("tag" ∉ (in_file ++ derived)%list ->
   listed_components false (in_file ++ derived)%list
   = (in_file ++ derived)%list) /\
  exists st',
    list_components_repeatedly self flags st = (Ok tt, st') /\
    lists st' !! components_in_file self = Some in_file /\
    lists st' !! derived_components self = Some derived /\
    (forall l v, lists st !! l = Some v -> lists st' !! l = Some v) /\
    log st' = log st /\
    objs st' = objs st /\
    (forall time_step time_units file_path,
       "tag" ∈ in_file ->
       _get_file_path self time_step = Ok file_path ->
       get_data self time_step ["tag"] None time_units st'
       = let r :=
           read_particle_data file_path (species_name self) ["tag"]
             (objs st') in
         (r.1,
          mk_state (lists st') r.2
            (log st'
               ++ [ReadParticleData file_path (species_name self) ["tag"]
                     r.1]))).
Proof.
  split; [|split; [|split; [|split]]].
  - intros include_tags. exists (fresh (dom (lists st))).
    pose proof (fresh_list_is_new st) as Hnew.
    split; [by apply get_list_of_available_components_spec|].
    split; [done|]. split; congruence.
  - done.
  - intros pre post -> Hpre. by apply listed_components_drops_first_tag.
  - apply listed_components_no_tag.
  - destruct (list_components_repeatedly_spec self flags st _ _
                Hin_file Hderived) as (st' & Hrun & Hlog & Hobjs & Hsub).
    assert (lists st' !! components_in_file self = Some in_file) as Hf'
      by by eapply lookup_weaken.
    assert (lists st' !! derived_components self = Some derived) as Hd'
      by by eapply lookup_weaken.
    exists st'. do 3 (split; [done|]).
    split; [by intros l v Hl; eapply lookup_weaken|].
    split; [done|]. split; [done|].
    intros time_step time_units file_path Htag Hpath.
    rewrite (get_data_raw _ _ _ _ _ in_file derived file_path); try done.
    by repeat constructor.
Qed.
(** ** Further properties of a species *)

(** *** The list of derived components *)

Lemma issubset_mono reqs (in_file in_file' : list string) :
  (forall c, c ∈ in_file -> c ∈ in_file') ->
  issubset reqs in_file = true -> issubset reqs in_file' = true.
Proof.
  rewrite !issubset_true, !subset_as_lists. intros Hsub Hreq r Hr.
  by apply Hsub, Hreq.
Qed.

(** X8.  With more components in the file no derived component is lost:
    the derived components of a smaller list of components are a
    subsequence of those of a larger one, and both follow the order of the
    names in the table.  A definition without requirements is derived for
    every species. *)
Theorem more_components_keep_derived
    (in_file in_file' : list string)
    (Hsub : forall c, c ∈ in_file -> c ∈ in_file') :
  sublist (_determine_available_derived_components in_file)
    (_determine_available_derived_components in_file') /\
  sublist (_determine_available_derived_components in_file')
    (name <$> derived_particle_data_definitions) /\
  (forall d, d ∈ derived_particle_data_definitions ->
     requirements d = [] ->
     name d ∈ _determine_available_derived_components in_file).
Proof.
  unfold _determine_available_derived_components.
  split; [|split].
  - induction derived_particle_data_definitions as [|d rest IH]; simpl;
      [constructor|].
    destruct (issubset (requirements d) in_file) eqn:Hd.
    + rewrite (issubset_mono _ _ _ Hsub Hd). by constructor.
    + destruct (issubset (requirements d) in_file'); [|done].
      by constructor.
  - induction derived_particle_data_definitions as [|d rest IH]; simpl;
      [constructor|].
    destruct (issubset (requirements d) in_file'); by constructor.
  - intros d Hd Hreq. apply determine_in_iff. exists d.
    split; [done|]. split; [done|].
    rewrite Hreq. apply issubset_true. intros r Hr. simpl in Hr.
    by apply elem_of_empty in Hr.
Qed.
(** *** The exceptions of [get_data] *)

Lemma get_file_path_errors self time_step x :
  _get_file_path self time_step = Raise x ->
  x = ValueError [ArgInt time_step; Text " is not in list"] \/ x = IndexError.
Proof.
  unfold _get_file_path. destruct (list_index _ _) as [i|]; [|left; congruence].
  destruct (_ !! i); [done|]. right. congruence.
Qed.

(** X9.  For a species whose list of derived components is the one computed
    from its components, a call of [get_data] that raises, raises
    - a [ValueError] (lengths, unknown component, time step not in the
      list), an [IndexError] (no file at the position of the time step, or
      a definition without requirements), a [KeyError] (the first
      requirement is not in the fetched data) or a [TypeError] (its
      metadata is not a dictionary), or
    - the exception that the reader, the unit converter or a recipe raised
      in the call that is the last one logged: it passes through unchanged.
    The look-up of a definition never misses. *)
Theorem get_data_raises_only
    (self : species) (time_step : Z) (components_list : list string)
    (data_units : option (list string)) (time_units : option string)
    (st st' : state) (in_file : list string) (x : exn)
    (Hin_file : lists st !! components_in_file self = Some in_file)
    (Hderived : lists st !! derived_components self
                = Some (_determine_available_derived_components in_file))
    (Hrun : get_data self time_step components_list data_units time_units st
            = (Raise x, st')) :
  (exists msg, x = ValueError msg) \/ x = IndexError \/
  (exists key, x = KeyError key) \/ x = TypeError \/
  exists evs ev,
    log st' = (log st ++ evs ++ [ev])%list /\ outcome_raised ev = Some x.
Proof.
  set (derived := _determine_available_derived_components in_file) in *.
  assert ((forall us, data_units = Some us ->
             length components_list = length us) \/
          exists msg, x = ValueError msg) as [Hunits|Hmis].
  { destruct data_units as [us|]; [|by left].
    destruct (decide (length components_list = length us)) as [Hlen|Hlen].
    - left. by intros ? [= <-].
    - right.
      destruct (length_check_raises self time_step components_list us
                  time_units st Hlen) as (e & He & ->).
      rewrite He in Hrun. injection Hrun as <- _. by eexists. }
  2:{ by left. }
  destruct (first_unavailable in_file derived components_list)
    as [Hall|(known & c & rest & -> & Hknown & Hc)].
  2:{ rewrite (get_data_first_unknown _ _ _ _ _ _ _ _ _ _
                 Hin_file Hderived Hknown Hc Hunits) in Hrun.
      injection Hrun as <- _. left. by eexists. }
  rewrite (get_data_valid _ _ _ _ _ _ _ _ Hin_file Hderived Hall Hunits)
    in Hrun.
  destruct (_get_file_path self time_step) as [file_path|y] eqn:Hpath.
  - cbv zeta in Hrun. unfold bind at 1, call in Hrun.
    destruct (read_particle_data _ _ _ _) as [[read|y] o1];
      cbn [fst snd] in Hrun.
    + match type of Hrun with
      | after_read ?a ?b ?c ?d ?e ?f ?g ?h ?s = _ =>
          destruct (runs_after_read a b c d e f g h s)
            as (o' & evs & Hst & _ & Hx)
      end.
      rewrite Hrun in Hst, Hx. cbn [fst snd lists log] in Hst, Hx.
      destruct (Hx x eq_refl)
        as [[->|[[key ->]|[->|(n & Hn & Hdef)]]]|(evs0 & ev & -> & Hev)].
      * right; by left.
      * right; right; left. by eexists.
      * right; right; right; by left.
      * exfalso. apply derived_part_elem in Hn as [Hn Hnf].
        rewrite Forall_forall in Hall. specialize (Hall n Hn).
        unfold available in Hall. apply py_in_false in Hnf.
        rewrite Hnf in Hall. simpl in Hall. apply py_in_true in Hall.
        destruct (get_definition_of_derived _ _ Hall) as (d & Hd & _).
        congruence.
      * do 4 right. subst st'. cbn [log].
        eexists (_ :: evs0), ev. split; [|done].
        by rewrite <- !List.app_assoc.
    + injection Hrun as <- <-. do 4 right. by eexists [], _.
  - injection Hrun as <- _.
    destruct (get_file_path_errors _ _ _ Hpath) as [->| ->];
      [left; by eexists | right; by left].
Qed.

(** *** Only the first 'tag' is removed *)

(** X10.  The list returned by [get_list_of_available_components()] is a
    subsequence of [components_in_file + derived_components] in which every
    name other than 'tag' occurs as often as before and 'tag' occurs once
    less (if at all): a second 'tag' stays in the list. *)
Theorem listing_removes_first_tag_only
    (self : species) (st : state) (in_file derived : list string)
    (Hin_file : lists st !! components_in_file self = Some in_file)
    (Hderived : lists st !! derived_components self = Some derived) :
  exists new_list shown st',
    get_list_of_available_components self false st = (Ok new_list, st') /\
    lists st' !! new_list = Some shown /\
    sublist shown (in_file ++ derived)%list /\
    (forall x, x <> "tag" ->
       count_occ String.string_dec shown x
       = count_occ String.string_dec (in_file ++ derived)%list x) /\
    count_occ String.string_dec shown "tag"
    = pred (count_occ String.string_dec (in_file ++ derived)%list "tag").
Proof.
  eexists _, _, _.
  split; [by apply get_list_of_available_components_spec|].
  split; [apply lookup_insert_eq|].
  generalize (in_file ++ derived)%list as all. intros all.
  destruct (decide ("tag" ∈ all)) as [Htag|Htag].
  - destruct (first_occurrence _ _ Htag) as (pre & post & -> & Hpre).
    rewrite listed_components_drops_first_tag by done.
    split; [|split].
    + apply sublist_app; [done | by apply sublist_cons].
    + intros x Hx. by rewrite count_occ_elt_neq.
    + by rewrite (count_occ_elt_eq _ pre post eq_refl).
  - rewrite listed_components_no_tag by done.
    split; [done|]. split; [done|].
    rewrite (proj1 (count_occ_not_In String.string_dec all "tag")); [done|].
    by rewrite <- list_elem_of_In.
Qed.

(** *** Units stay with their components *)

Lemma selected_units_length keep (components_list us : list string) :
  length components_list = length us ->
  length (selected_units keep components_list us)
  = length (List.filter keep components_list).
Proof.
  unfold selected_units. revert us.
  induction components_list as [|c l IH]; intros [|u us] Hlen; try done.
  simpl in *. destruct (keep c); simpl; rewrite IH; lia.
Qed.

Lemma combine_selected_units keep (components_list us : list string) :
  length components_list = length us ->
  combine (List.filter keep components_list)
    (selected_units keep components_list us)
  = List.filter (fun cu => keep cu.1) (combine components_list us).
Proof.
  unfold selected_units. revert us.
  induction components_list as [|c l IH]; intros [|u us] Hlen; try done.
  simpl in *. destruct (keep c); simpl; rewrite IH; by try lia.
Qed.

Lemma filter_combine_keys keep (components_list us : list string) x :
  x ∈ (List.filter (fun cu : string * string => keep cu.1)
         (combine components_list us)).*1 ->
  x ∈ components_list.
Proof.
  revert us. induction components_list as [|c l IH]; intros [|u us];
    simpl; try by intros ?%elem_of_nil.
  destruct (keep c); simpl.
  - intros [->|?]%elem_of_cons; [by left | right; by eapply IH].
  - intros ?. right. by eapply IH.
Qed.

Lemma filter_combine_split keep (components_list us : list string) i c u :
  components_list !! i = Some c -> us !! i = Some u -> keep c = true ->
  (forall j, (i < j)%nat -> components_list !! j <> Some c) ->
  exists l1 l2,
    List.filter (fun cu => keep cu.1) (combine components_list us)
    = (l1 ++ (c, u) :: l2)%list /\ (c ∉ l2.*1).
Proof.
  revert us i.
  induction components_list as [|c0 l IH]; intros [|u0 us] [|i] Hc Hu Hk Hlast;
    try done; simpl in *.
  - simplify_eq. rewrite Hk. eexists [], _. split; [done|].
    intros Hin%filter_combine_keys.
    destruct (list_elem_of_lookup_1 _ _ Hin) as [j Hj].
    apply (Hlast (S j)); [lia | done].
  - destruct (IH us i Hc Hu Hk) as (l1 & l2 & Heq & Hl2).
    { intros j Hj. apply (Hlast (S j)). lia. }
    rewrite Heq. destruct (keep c0).
    + by exists ((c0, u0) :: l1), l2.
    + by exists l1, l2.
Qed.

Lemma dict_fold_untouched (l : list (string * string)) k
    (m : gmap string string) :
  k ∉ l.*1 ->
  fold_left (fun m kv => <[kv.1 := kv.2]> m) l m !! k = m !! k.
Proof.
  revert m. induction l as [|[k' v'] l IH]; intros m Hk; [done|].
  rewrite fmap_cons in Hk. apply not_elem_of_cons in Hk as [Hne Hk].
  simpl. rewrite IH by done. by rewrite lookup_insert_ne.
Qed.

(** In [dict(zip(...))] the last pair of a key decides. *)
Lemma dict_fold_last (l1 l2 : list (string * string)) k v
    (m : gmap string string) :
  k ∉ l2.*1 ->
  fold_left (fun m kv => <[kv.1 := kv.2]> m) (l1 ++ (k, v) :: l2)%list m !! k
  = Some v.
Proof.
  intros Hk. rewrite fold_left_app. simpl.
  rewrite dict_fold_untouched by done. apply lookup_insert_eq.
Qed.

(** X11.  When units are given, the first loop of [get_data] keeps each unit
    with its component: in the dictionary of target units built for the raw
    components, and in the one built for the derived components, a
    component has the unit given at its position in the request (at its
    last position if it is requested more than once). *)
Theorem units_follow_their_components
    (self : species) (components_list us : list string) (st : state)
    (in_file derived : list string)
    (Hin_file : lists st !! components_in_file self = Some in_file)
    (Hderived : lists st !! derived_components self = Some derived)
    (Hall : Forall (fun c => available in_file derived c = true)
              components_list)
    (Hlen : length components_list = length us) :
  exists parts raw_units derived_units,
    split_components self (Some us) 0 components_list
      (mk_split [] (Some []) [] (Some [])) st
    = (Ok parts, st) /\
    comp_to_read_units parts = Some raw_units /\
    derived_components_units parts = Some derived_units /\
    length raw_units = length (comp_to_read parts) /\
    length derived_units = length (derived_to_compute parts) /\
    forall i c u,
      components_list !! i = Some c -> us !! i = Some u ->
      (forall j, (i < j)%nat -> components_list !! j <> Some c) ->
      if py_in c in_file
      then dict_zip (comp_to_read parts) raw_units !! c = Some u
      else dict_zip (derived_to_compute parts) derived_units !! c = Some u.
Proof.
  eexists _, _, _. split.
  { apply (split_components_ok _ _ _ _ _ _ in_file derived); try done.
    intros du [= <-]. simpl. lia. }
  cbn [comp_to_read comp_to_read_units derived_to_compute
       derived_components_units extend_units app].
  change (drop 0 us) with us.
  split; [done|]. split; [done|].
  split; [by apply selected_units_length|].
  split; [by apply selected_units_length|].
  intros i c u Hc Hu Hlast. unfold dict_zip, raw_part, derived_part.
  rewrite !combine_selected_units by done. cbv beta.
  destruct (py_in c in_file) eqn:Hcf.
  - destruct (filter_combine_split (fun c => py_in c in_file) _ _ _ _ _
                Hc Hu Hcf Hlast) as (l1 & l2 & Heq & Hl2).
    cbv beta in Heq. rewrite Heq. by apply dict_fold_last.
  - destruct (filter_combine_split (fun c => negb (py_in c in_file)) _ _ _ _ _
                Hc Hu) as (l1 & l2 & Heq & Hl2); [by rewrite Hcf | done |].
    cbv beta in Heq. rewrite Heq. by apply dict_fold_last.
Qed.

(** *** A time step without a file *)

Lemma list_index_first x l i :
  l !! i = Some x -> (forall j, (j < i)%nat -> l !! j <> Some x) ->
  list_index x l = Some i.
Proof.
  revert i. induction l as [|y l IH]; intros [|i] Hi Hfirst; try done;
    simpl in *.
  - simplify_eq. by rewrite Z.eqb_refl.
  - destruct (Z.eqb_spec y x) as [->|Hne].
    + exfalso. apply (Hfirst 0%nat); [lia | done].
    + rewrite (IH i); [done | done |].
      intros j Hj. apply (Hfirst (S j)). lia.
Qed.
(** X12.  If [species_files] is too short to have an entry at the position
    of the (first occurrence of the) time step, a call that passed the
    checks of its components raises [IndexError] before anything is read. *)
Theorem time_step_without_file
    (self : species) (time_step : Z) (components_list : list string)
    (data_units : option (list string)) (time_units : option string)
    (st : state) (in_file derived : list string) (i : nat)
    (Hin_file : lists st !! components_in_file self = Some in_file)
    (Hderived : lists st !! derived_components self = Some derived)
    (Hall : Forall (fun c => available in_file derived c = true)
              components_list)
    (Hunits : forall us, data_units = Some us ->
                length components_list = length us)
    (Hpos : timesteps self !! i = Some time_step)
    (Hfirst : forall j, (j < i)%nat -> timesteps self !! j <> Some time_step)
    (Hshort : (length (species_files self) <= i)%nat) :
  get_data self time_step components_list data_units time_units st
  = (Raise IndexError, st).
Proof.
  rewrite (get_data_valid _ _ _ _ _ _ _ _ Hin_file Hderived Hall Hunits).
  unfold _get_file_path. rewrite (list_index_first _ _ _ Hpos Hfirst).
  by rewrite (lookup_ge_None_2 _ _ Hshort).
Qed.

(** *** A derived component that cannot be computed *)

(** A call for one derived component reads no raw component, computes the
    derived one and joins the two dictionaries. *)
Lemma get_data_one_derived self time_step n time_units st in_file derived
    file_path :
  lists st !! components_in_file self = Some in_file ->
  lists st !! derived_components self = Some derived ->
  n ∉ in_file -> n ∈ derived ->
  _get_file_path self time_step = Ok file_path ->
  get_data self time_step [n] None time_units st
  = (read <- call (read_particle_data file_path (species_name self) [])
               (ReadParticleData file_path (species_name self) []) ;;
     dict <- derive_one self file_path n time_units ∅ ;;
     ret (dict ∪ read)) st.
Proof.
  intros Hf Hd Hnf Hnd Hpath.
  apply py_in_false in Hnf. apply py_in_true in Hnd.
  rewrite (get_data_valid _ _ _ _ _ _ in_file derived Hf Hd); [| |done].
  2:{ repeat constructor. unfold available. by rewrite Hnf, Hnd. }
  rewrite Hpath. unfold raw_part, derived_part. cbn [List.filter].
  rewrite Hnf. cbn [negb fmap option_fmap option_map]. cbv zeta.
  apply bind_ext. intros read st1.
  unfold after_read, _calculate_derived_data. cbn [_convert_data_units].
  cbn [derive_all]. unfold bind, ret.
  by destruct (derive_one _ _ _ _ _ _) as [[dict|x] st2].
Qed.


(** X14.  Let the data fetched in SI for the requirements of a derived
    component have no entry for the first requirement.  The recipe is
    called on this data before the entry is looked up: if the recipe
    raises, [get_data] raises the exception of the recipe; if the recipe
    returns, [get_data] raises [KeyError] for the first requirement.  In
    both cases the read, the conversion to SI and the call of the recipe
    are logged. *)
Theorem derived_missing_first_requirement
    (self : species) (time_step : Z) (time_units : option string)
    (st : state) (in_file derived : list string) (file_path : string)
    (n : string) (d : data_def) (first : string) (rest : list string)
    (read0 read si : pdata) (o1 o2 o3 : objects)
    (Hin_file : lists st !! components_in_file self = Some in_file)
    (Hderived : lists st !! derived_components self = Some derived)
    (Hnot_raw : n ∉ in_file)
    (Hn : n ∈ derived)
    (Hpath : _get_file_path self time_step = Ok file_path)
    (Hdef : get_definition n = Ok d)
    (Hreq : requirements d = first :: rest)
    (Hread0 : read_particle_data file_path (species_name self) [] (objs st)
              = (Ok read0, o1))
    (Hread : read_particle_data file_path (species_name self)
               (requirements d) o1 = (Ok read, o2))
    (Hconv : convert_particle_data_units read
               (dict_zip (requirements d) (si_units d)) time_units o2
             = (Ok si, o3))
    (Hmissing : si !! first = None) :
  get_data self time_step [n] None time_units st
  = let r := recipe d si o3 in
    (match r.1 with
     | Ok _ => Raise (KeyError first)
     | Raise x => Raise x
     end,
     mk_state (lists st) r.2
       (log st
          ++ [ReadParticleData file_path (species_name self) [] (Ok read0);
              ReadParticleData file_path (species_name self) (requirements d)
                (Ok read);
              ConvertUnits read (dict_zip (requirements d) (si_units d))
                time_units (Ok si);
              Recipe (name d) si r.1])).
Proof.
  rewrite (get_data_one_derived _ _ _ _ _ _ _ _
             Hin_file Hderived Hnot_raw Hn Hpath).
  unfold bind at 1, call. rewrite Hread0. cbn [fst snd].
  unfold bind at 1, derive_one, bind at 1, lift. rewrite Hdef.
  unfold bind at 1, _get_file_data, bind at 1, call. cbn [objs lists log].
  rewrite Hread. cbn [fst snd _convert_data_units].
  unfold si_units in Hconv. unfold call. cbn [objs lists log].
  rewrite Hconv. cbn [fst snd].
  unfold bind at 1, call. cbn [objs lists log]. cbv zeta.
  destruct (recipe d si o3) as [[derived_array|x] o4]; cbn [fst snd].
  - unfold si_units. rewrite Hreq. unfold bind at 1, ret. rewrite Hmissing.
    unfold bind, raise. by rewrite <- !List.app_assoc.
  - by rewrite <- !List.app_assoc.
Qed.

(** *** The keys of the result *)

Lemma raw_or_derived in_file (components_list : list string) k :
  k ∈ components_list <->
  k ∈ raw_part in_file components_list \/
  k ∈ derived_part in_file components_list.
Proof.
  unfold raw_part, derived_part. rewrite !list_elem_of_In, !filter_In.
  destruct (py_in k in_file); simpl; intuition congruence.
Qed.

(** X15.  Without [data_units], the keys of the dictionary that [get_data]
    returns are exactly the requested names, raw and derived, provided the
    reader returns exactly the raw components it is asked for. *)
Theorem result_keys_are_requested
    (self : species) (time_step : Z) (components_list : list string)
    (time_units : option string) (st st' : state) (out : pdata)
    (in_file derived : list string) (file_path : string)
    (Hin_file : lists st !! components_in_file self = Some in_file)
    (Hderived : lists st !! derived_components self = Some derived)
    (Hpath : _get_file_path self time_step = Ok file_path)
    (Hreader : forall read o1,
       read_particle_data file_path (species_name self)
         (raw_part in_file components_list) (objs st) = (Ok read, o1) ->
       dom read = list_to_set (raw_part in_file components_list))
    (Hrun : get_data self time_step components_list None time_units st
            = (Ok out, st')) :
  dom out = list_to_set components_list.
Proof.
  destruct (get_data_ok_inv _ _ _ _ _ _ _ _ _ _ Hin_file Hderived Hrun)
    as (file_path' & read & o1 & folder_data & o2 & dict & st3 & derived_data
        & o4 & Hpath' & Hread & Hconv1 & Hloop & Hconv2 & -> & ->).
  assert (file_path' = file_path) as -> by congruence.
  cbv zeta in *. simpl in Hconv1, Hconv2.
  destruct Hconv1 as [-> ->], Hconv2 as [-> ->].
  apply derive_all_ok in Hloop as (chunks & _ & _ & _ & Hin & Hout).
  apply set_eq. intros k.
  rewrite dom_union, elem_of_union, (Hreader _ _ Hread),
    !elem_of_list_to_set.
  rewrite (raw_or_derived in_file components_list k), elem_of_dom.
  split.
  - intros [[e He]|?]; [|by left]. right.
    destruct (decide (k ∈ derived_part in_file components_list)); [done|].
    by rewrite Hout, lookup_empty in He.
  - intros [?|Hk]; [by right|]. left.
    destruct (Hin k Hk) as (si & a & r & -> & _). by eexists.
Qed.

(** *** The species shares the caller's list *)

(** X16.  [__init__] keeps the caller's list of components, not a copy, and
    computes the derived components once: when the caller's list is changed
    afterwards, the species sees the new content (a component in it is read
    as a raw component: the call is the read of that component), while its
    list of derived components is still the one computed from the old
    content. *)
Theorem species_shares_components_list
    (species_name' : string) (components : loc) (steps : list Z)
    (files : list string) (st : state) (in_file changed : list string)
    (time_step : Z) (file_path : string) (c : string)
    (time_units : option string)
    (Hstore : lists st !! components = Some in_file)
    (Hc : c ∈ changed)
    (i : nat)
    (Hpos : list_index time_step steps = Some i)
    (Hfile : files !! i = Some file_path) :
  exists self st1,
    __init__ species_name' components steps files st = (Ok self, st1) /\
    let st2 :=
      mk_state (<[components := changed]> (lists st1)) (objs st1) (log st1) in
    lists st2 !! components_in_file self = Some changed /\
    lists st2 !! derived_components self
    = Some (_determine_available_derived_components in_file) /\
    get_data self time_step [c] None time_units st2
    = let r := read_particle_data file_path species_name' [c] (objs st2) in
      (r.1,
       mk_state (lists st2) r.2
         (log st2 ++ [ReadParticleData file_path species_name' [c] r.1])).
Proof.
  set (self := mk_species species_name' components (fresh (dom (lists st)))
                 steps files).
  set (st1 := mk_state
                (<[fresh (dom (lists st))
                   := _determine_available_derived_components in_file]>
                   (lists st))
                (objs st) (log st)).
  exists self, st1. split.
  { unfold __init__, bind, deref, alloc, ret. by rewrite Hstore. }
  intros st2.
  assert (fresh (dom (lists st)) <> components) as Hne.
  { intros Heq. apply (is_fresh (dom (lists st))). rewrite Heq.
    by apply elem_of_dom. }
  assert (lists st2 !! components_in_file self = Some changed) as Hf2
    by apply lookup_insert_eq.
  assert (lists st2 !! derived_components self
          = Some (_determine_available_derived_components in_file)) as Hd2.
  { unfold st2, st1, self. cbn [lists derived_components].
    by rewrite lookup_insert_ne, lookup_insert_eq. }
  split; [done|]. split; [done|].
  rewrite (get_data_raw self time_step [c] time_units st2 changed _ file_path
             Hf2 Hd2); [done | by repeat constructor |].
  unfold _get_file_path, self. cbn [timesteps species_files].
  by rewrite Hpos, Hfile.
Qed.

End Model.

End ParticleSpecies.

(** ** A concrete species

    The theorems above are stated for any table of definitions, reader and
    converter.  Here they are applied to a species with two derived
    quantities. *)

Module SpeciesExamples.
Import ParticleSpecies.

(** A small species: arrays are lists of integers. *)
Definition arr : Type := list Z.

(** The example collaborators keep one number between calls: the next
    unused reference. *)
Definition heap : Type := objects nat.

Definition new_metadata (md : gmap string string) (o : heap) : loc * heap :=
  (ext nat o,
   mk_objects nat (<[ext nat o := md]> (metas nat o)) (S (ext nat o))).

Fixpoint read_components (file_path : string) (components_list : list string)
    (data : gmap string (arr * loc)) (o : heap)
  : gmap string (arr * loc) * heap :=
  match components_list with
  | [] => (data, o)
  | c :: rest =>
      let md :=
        new_metadata {[ "units" := "native"; "file" := file_path ]} o in
      read_components file_path rest
        (<[c := ([Z.of_nat (String.length c) + 1], md.1)]> data) md.2
  end.

(** A reader that returns, for each requested component, a one-element
    array and a new metadata dictionary that names the file. *)
Definition reader (file_path species : string) (components_list : list string)
  : external nat (gmap string (arr * loc)) :=
  fun o =>
    let r := read_components file_path components_list ∅ o in
    (Ok r.1, r.2).

(** A converter that writes the target unit of each listed component into
    the metadata of the component, in place, and returns the tuples it was
    given. *)
Definition converter (data : gmap string (arr * loc))
    (target : gmap string string) (time_units : option string)
  : external nat (gmap string (arr * loc)) :=
  fun o =>
    (Ok data,
     mk_objects nat
       (map_fold
          (fun k (v : arr * loc) m =>
             match target !! k with
             | Some u => alter (insert "units" u) v.2 m
             | None => m
             end)
          (metas nat o) data)
       (ext nat o)).

(** The recipe of a slope: the ratio of two components, which it looks up
    in the data that it is given. *)
Definition ratio (a b : string) (data : gmap string (arr * loc))
  : external nat arr :=
  fun o =>
    match data !! a, data !! b with
    | Some x, Some y => (Ok (zip_with Z.div x.1 y.1), o)
    | None, _ => (Raise (KeyError a), o)
    | _, None => (Raise (KeyError b), o)
    end.

Definition x_prime : data_def arr nat :=
  mk_data_def arr nat "x_prime" "rad" ["px"; "pz"] (ratio "px" "pz").

Definition y_prime : data_def arr nat :=
  mk_data_def arr nat "y_prime" "rad" ["py"; "pz"] (ratio "py" "pz").

Definition table : list (data_def arr nat) := [x_prime; y_prime].

Definition in_file0 : list string := ["x"; "px"; "pz"; "tag"].

Definition no_objects : heap := mk_objects nat ∅ 0%nat.

Definition st0 : state arr nat :=
  mk_state arr nat {[ 0%nat := in_file0 ]} no_objects [].

Definition electrons : species :=
  mk_species "electrons" 0%nat 1%nat [10; 20; 30] ["f10"; "f20"; "f30"].

Definition st1 : state arr nat :=
  mk_state arr nat (<[1%nat := ["x_prime"]]> {[ 0%nat := in_file0 ]})
    no_objects [].

Example init_electrons :
  __init__ arr nat table "electrons" 0%nat [10; 20; 30]
    ["f10"; "f20"; "f30"] st0
  = (Ok electrons, st1).
Proof. reflexivity. Qed.

(** The metadata that the reader makes for a component of file 'f20', and
    what a result holds for a component: its array and its metadata. *)
Definition native_f20 : gmap string string :=
  {[ "units" := "native"; "file" := "f20" ]}.

Definition entry_of (run : result (gmap string (arr * loc)) * state arr nat)
    (c : string) : option (arr * gmap string string) :=
  match run.1 with
  | Ok out =>
      match out !! c with
      | Some e =>
          match metas nat (objs arr nat run.2) !! e.2 with
          | Some md => Some (e.1, md)
          | None => None
          end
      | None => None
      end
  | Raise _ => None
  end.

Example get_x_and_x_prime :
  let run := get_data arr nat table reader converter electrons 20
               ["x"; "x_prime"] None None st1 in
  entry_of run "x" = Some ([2], native_f20) /\
  entry_of run "x_prime" = Some ([1], <["units" := "rad"]> native_f20).
Proof. split; vm_compute; reflexivity. Qed.

Lemma derived_iff_requirements_subset_witness :
  NoDup (name arr nat <$> table) /\
  lists arr nat st0 !! 0%nat = Some in_file0 /\
  exists self derived,
    __init__ arr nat table "electrons" 0%nat [10; 20; 30]
      ["f10"; "f20"; "f30"] st0
    = (Ok self,
       mk_state arr nat
         (<[derived_components self := derived]> (lists arr nat st0))
         (objs arr nat st0) (log arr nat st0)) /\
    derived = ["x_prime"].
Proof.
  assert (NoDup (name arr nat <$> table)) as Hnd
    by (apply (bool_decide_unpack _); vm_compute; exact I).
  split; [exact Hnd|]. split; [reflexivity|].
  destruct (derived_iff_requirements_subset arr nat table Hnd "electrons"
              0%nat [10; 20; 30] ["f10"; "f20"; "f30"] st0 in_file0 eq_refl)
    as (self & derived & Hrun & _ & _ & Hder & _).
  exists self, derived. split; [exact Hrun|]. rewrite Hder. reflexivity.
Defined.

Lemma mismatched_lengths_fail_first_witness :
  length ["x"; "x_prime"] <> length ["um"] /\
  get_data arr nat table reader converter electrons 20 ["x"; "x_prime"]
    (Some ["um"]) None st1
  = (Raise (ValueError
              [Text "Lenght of components list ("; ArgInt 2; Text ")";
               Text " and data units list ("; ArgInt 1;
               Text ") do not match."]), st1).
Proof.
  assert (length ["x"; "x_prime"] <> length ["um"]) as Hlen by (simpl; lia).
  split; [exact Hlen|].
  exact (mismatched_lengths_fail_first arr nat table reader converter
           electrons 20 ["x"; "x_prime"] ["um"] None st1 Hlen).
Defined.

Lemma time_step_resolves_by_position_witness :
  lists arr nat st1 !! components_in_file electrons = Some in_file0 /\
  lists arr nat st1 !! derived_components electrons = Some ["x_prime"] /\
  Forall (fun c => available in_file0 ["x_prime"] c = true)
    ["x"; "x_prime"] /\
  get_data arr nat table reader converter electrons 25 ["x"; "x_prime"]
    (Some ["um"; "mrad"]) None st1
  = (Raise (ValueError [ArgInt 25; Text " is not in list"]), st1) /\
  exists i file_path,
    timesteps electrons !! i = Some 20 /\
    species_files electrons !! i = Some file_path /\
    _get_file_path electrons 20 = Ok file_path /\
    exists outcome evs,
      log arr nat
        (get_data arr nat table reader converter electrons 20
           ["x"; "x_prime"] (Some ["um"; "mrad"]) None st1).2
      = (log arr nat st1
           ++ ReadParticleData arr file_path "electrons" ["x"] outcome
           :: evs)%list /\
      Forall (reads_only_from arr file_path) evs.
Proof.
  assert (Forall (fun c => available in_file0 ["x_prime"] c = true)
            ["x"; "x_prime"]) as Hall by (repeat constructor).
  assert (forall us, Some ["um"; "mrad"] = Some us ->
            length ["x"; "x_prime"] = length us) as Hunits
    by (intros us [= <-]; reflexivity).
  do 3 (split; [done|]).
  pose proof (time_step_resolves_by_position arr nat table reader converter
                electrons 25 ["x"; "x_prime"] (Some ["um"; "mrad"]) None st1
                in_file0 ["x_prime"] eq_refl eq_refl Hall Hunits)
    as [Habsent _].
  pose proof (time_step_resolves_by_position arr nat table reader converter
                electrons 20 ["x"; "x_prime"] (Some ["um"; "mrad"]) None st1
                in_file0 ["x_prime"] eq_refl eq_refl Hall Hunits)
    as [_ Hpresent].
  split.
  - apply Habsent. simpl. rewrite !elem_of_cons, elem_of_nil.
    intros [?|[?|[?|[]]]]; discriminate.
  - destruct Hpresent
      as (i & f & Hi & _ & Hfile & Hpath & outcome & evs & Hlog & _ & Hevs);
      [simpl; rewrite !elem_of_cons; auto | reflexivity |].
    exists i, f. do 3 (split; [assumption|]).
    exists outcome, evs. split; [exact Hlog | exact Hevs].
Defined.

Lemma unknown_component_lists_available_witness :
  lists arr nat st1 !! components_in_file electrons = Some in_file0 /\
  lists arr nat st1 !! derived_components electrons = Some ["x_prime"] /\
  exists c shown,
    get_data arr nat table reader converter electrons 20
      ["x"; "charge"; "q"] None None st1
    = (Raise (ValueError
                [Text "Component '"; ArgStr c; Text "' not found. ";
                 Text "Available components are "; ArgList shown;
                 Text "."]),
       mk_state arr nat
         (<[fresh (dom (lists arr nat st1)) := shown]> (lists arr nat st1))
         (objs arr nat st1) (log arr nat st1)) /\
    shown = ["x"; "px"; "pz"; "x_prime"].
Proof.
  do 2 (split; [done|]).
  destruct (unknown_component_lists_available arr nat table reader converter
              electrons 20 ["x"; "charge"; "q"] None None st1
              in_file0 ["x_prime"] eq_refl eq_refl)
    as (c & shown & _ & _ & _ & Hrun & Hshown & _).
  - intros us [=].
  - exists "q". unfold in_file0. rewrite !elem_of_cons, !elem_of_nil.
    split; [auto|]. split; intros H;
      repeat (destruct H as [H|H]; [discriminate|]); done.
  - exists c, shown. split; [exact Hrun|]. rewrite Hshown. reflexivity.
Defined.

Lemma raw_components_returned_as_read_witness :
  lists arr nat st1 !! components_in_file electrons = Some in_file0 /\
  Forall (fun c => c ∈ in_file0) ["x"; "tag"] /\
  _get_file_path electrons 30 = Ok "f30" /\
  exists read o',
    reader "f30" "electrons" ["x"; "tag"] (objs arr nat st1) = (Ok read, o')
    /\
    dom read = list_to_set ["x"; "tag"] /\
    get_data arr nat table reader converter electrons 30 ["x"; "tag"] None
      (Some "fs") st1
    = (Ok read,
       mk_state arr nat (lists arr nat st1) o'
         (log arr nat st1
            ++ [ReadParticleData arr "f30" "electrons" ["x"; "tag"]
                  (Ok read)])).
Proof.
  assert (Forall (fun c => c ∈ in_file0) ["x"; "tag"]) as Hraw.
  { repeat constructor; unfold in_file0; rewrite !elem_of_cons; auto. }
  split; [done|]. split; [exact Hraw|]. split; [done|].
  set (r := read_components "f30" ["x"; "tag"] ∅ (objs arr nat st1)).
  assert (dom r.1 = list_to_set ["x"; "tag"]) as Hreader
    by (apply (bool_decide_unpack _); vm_compute; exact I).
  exists r.1, r.2. split; [reflexivity|]. split; [exact Hreader|].
  destruct (raw_components_returned_as_read arr nat table reader converter
              electrons 30 ["x"; "tag"] (Some "fs") st1 in_file0 ["x_prime"]
              "f30" r.1 r.2 eq_refl eq_refl Hraw eq_refl eq_refl Hreader)
    as (out & Hrun & -> & _).
  exact Hrun.
Defined.

Lemma requirements_fetched_in_si_witness :
  lists arr nat st1 !! components_in_file electrons = Some in_file0 /\
  lists arr nat st1 !! derived_components electrons = Some ["x_prime"] /\
  exists out st',
    get_data arr nat table reader converter electrons 20 ["x"; "x_prime"]
      (Some ["um"; "mrad"]) None st1
    = (Ok out, st') /\
    exists read folder_data fetched si derived_array dict derived_data,
      log arr nat st'
      = [ReadParticleData arr "f20" "electrons" ["x"] (Ok read);
         ConvertUnits arr read {[ "x" := "um" ]} None (Ok folder_data);
         ReadParticleData arr "f20" "electrons" ["px"; "pz"] (Ok fetched);
         ConvertUnits arr fetched {[ "px" := "SI"; "pz" := "SI" ]} None
           (Ok si);
         Recipe arr "x_prime" si (Ok derived_array);
         ConvertUnits arr dict {[ "x_prime" := "mrad" ]} None
           (Ok derived_data)].
Proof.
  do 2 (split; [done|]).
  assert (exists out st',
            get_data arr nat table reader converter electrons 20
              ["x"; "x_prime"] (Some ["um"; "mrad"]) None st1 = (Ok out, st'))
    as (out & st' & Hrun) by (eexists _, _; vm_compute; reflexivity).
  destruct (requirements_fetched_in_si arr nat table reader converter
              electrons 20 ["x"; "x_prime"] (Some ["um"; "mrad"]) None st1
              st' out in_file0 ["x_prime"] eq_refl eq_refl Hrun)
    as (file_path & read & folder_data & chunks & dict & derived_data
        & Hpath & Hlog & Hchunks & _).
  vm_compute in Hpath. injection Hpath as <-.
  change (derived_part in_file0 ["x"; "x_prime"]) with ["x_prime"]
    in Hchunks, Hlog.
  change (raw_part in_file0 ["x"; "x_prime"]) with ["x"] in Hlog.
  apply Forall2_cons_inv_l in Hchunks
    as (chunk & chunks' & (d & fetched & si & derived_array & Hdef & _
                           & -> & _) & Hnil & ->).
  apply Forall2_nil_inv_l in Hnil as ->.
  vm_compute in Hdef. injection Hdef as <-.
  exists out, st'. split; [exact Hrun|].
  exists read, folder_data, fetched, si, derived_array, dict, derived_data.
  rewrite Hlog. reflexivity.
Defined.


Lemma listing_components_leaves_species_unchanged_witness :
  lists arr nat st1 !! components_in_file electrons = Some in_file0 /\
  lists arr nat st1 !! derived_components electrons = Some ["x_prime"] /\
  exists st',
    list_components_repeatedly arr nat electrons [false; true; false] st1
    = (Ok tt, st') /\
    lists arr nat st' !! components_in_file electrons = Some in_file0 /\
    objs arr nat st' = objs arr nat st1 /\
    get_data arr nat table reader converter electrons 20 ["tag"] None None st'
    = let r := reader "f20" "electrons" ["tag"] (objs arr nat st') in
      (r.1,
       mk_state arr nat (lists arr nat st') r.2
         (log arr nat st'
            ++ [ReadParticleData arr "f20" "electrons" ["tag"] r.1])).
Proof.
  do 2 (split; [done|]).
  destruct (listing_components_leaves_species_unchanged arr nat table reader
              converter electrons [false; true; false] st1 in_file0
              ["x_prime"] eq_refl eq_refl)
    as (_ & _ & _ & _ & st' & Hrun & Hf & _ & _ & _ & Hobjs & Hget).
  exists st'. split; [exact Hrun|]. split; [exact Hf|].
  split; [exact Hobjs|].
  apply Hget; [|reflexivity].
  unfold in_file0. rewrite !elem_of_cons. auto.
Defined.

(** *** A reader that shares metadata *)








End SpeciesExamples.

(** ** Further properties of the folder scanner *)

Module ScannerExtras.
Import PyStr PyStrFacts OsirisFolderScanner ScannerProps.

(** *** Top-level entries *)

(** The two folder names that [get_list_of_fields] looks into. *)
Definition is_category (folder : string) : bool :=
  String.eqb folder "DENSITY" || String.eqb folder "FLD".

Lemma scan_top_skips argsort folder_path folders field_list :
  scan_top argsort folder_path folders field_list
  = scan_top argsort folder_path
      (List.filter (fun fe => is_category fe.1) folders) field_list.
Proof.
  revert field_list.
  induction folders as [|[folder e] rest IH]; intros field_list; [done|].
  cbn [List.filter fst]. unfold is_category.
  destruct (String.eqb folder "DENSITY") eqn:Hd.
  - cbn [orb scan_top]. rewrite Hd.
    destruct (result_bind (listdir _ e) _) as [fl1|x]; [|done].
    cbn [result_bind].
    destruct (if String.eqb folder "FLD" then _ else _) as [fl2|x]; [|done].
    cbn [result_bind]. apply IH.
  - destruct (String.eqb folder "FLD") eqn:Hf.
    + cbn [orb scan_top]. rewrite Hd, Hf. cbn [result_bind].
      destruct (result_bind (listdir _ e) _) as [fl2|x]; [|done].
      cbn [result_bind]. apply IH.
    + cbn [orb scan_top]. rewrite Hd, Hf. cbn [result_bind]. apply IH.
Qed.

(** X1.  Entries of the root other than "DENSITY" and "FLD" play no part in
    the scan, whatever they are, and a root without these two yields the
    empty list of fields. *)
Theorem scan_ignores_other_entries
    (argsort : list Z -> list nat) (folder_path : string)
    (folders : list (string * entry)) :
  get_list_of_fields argsort folder_path (Folder folders)
  = get_list_of_fields argsort folder_path
      (Folder (List.filter (fun fe => is_category fe.1) folders)) /\
  (Forall (fun fe => is_category fe.1 = false) folders ->
   get_list_of_fields argsort folder_path (Folder folders) = Ok []).
Proof.
  split.
  - unfold get_list_of_fields. cbn [listdir result_bind].
    apply scan_top_skips.
  - intros Hnone. unfold get_list_of_fields. cbn [listdir result_bind].
    rewrite scan_top_skips.
    replace (List.filter (fun fe => is_category fe.1) folders) with
      (@nil (string * entry)); [done|].
    induction Hnone as [|fe rest Hfe _ IH]; [done|].
    cbn [List.filter]. by rewrite Hfe.
Qed.

(** X2.  The scanner lists "DENSITY" and "FLD" without testing that they are
    directories: if the first of the root's entries with one of these names
    is a plain file, the scan raises [NotADirectoryError] for its path. *)
Theorem category_must_be_directory
    (argsort : list Z -> list nat) (folder_path : string)
    (before after : list (string * entry)) (category : string)
    (Hbefore : Forall (fun fe => is_category fe.1 = false) before)
    (Hcategory : is_category category = true) :
  get_list_of_fields argsort folder_path
    (Folder (before ++ (category, File) :: after))
  = Raise (NotADirectoryError (path_join folder_path category)).
Proof.
  unfold get_list_of_fields. cbn [listdir result_bind].
  rewrite scan_top_skips, List.filter_app.
  replace (List.filter (fun fe => is_category fe.1) before) with
    (@nil (string * entry)).
  2:{ induction Hbefore as [|fe rest Hfe _ IH]; [done|].
      cbn [List.filter]. by rewrite Hfe. }
  cbn [app List.filter fst]. rewrite Hcategory. cbn [scan_top].
  unfold is_category in Hcategory.
  destruct (String.eqb category "DENSITY") eqn:Hd; [done|].
  destruct (String.eqb category "FLD") eqn:Hf; [done|done].
Qed.

(** *** The descriptors of a category *)

(** What the scan records for the field folder [fe] of species [species]
    under [dir]. *)
Definition describes (argsort : list Z -> list nat) (dir species : string)
    (fe : string * entry) (f : FolderField) : Prop :=
  dict_get name_relations (_get_osiris_field_name fe.1) = Some (field_name f)
  /\ field_path f = "/" ++ _get_osiris_field_name fe.1
  /\ species_name f = species
  /\ unit_converter f = "uc"
  /\ _get_files_and_timesteps argsort (path_join dir fe.1) fe.2
     = Ok (fld_files f, time_steps f).

Lemma create_field_describes argsort dir species field e f :
  _create_field argsort field (path_join dir field) e species = Ok f ->
  describes argsort dir species (field, e) f.
Proof.
  unfold _create_field, _get_standard_visualpic_name, describes.
  destruct (dict_get _ _) as [v|]; [|done]. cbn [result_bind fst snd].
  destruct (_get_files_and_timesteps _ _ _) as [[files steps]|]; [|done].
  cbn [result_bind]. by intros [= <-].
Qed.

(** X3.  A scan of the field folders of one directory that succeeds appends
    one descriptor for every sub-directory, in listing order, and skips the
    plain files: each descriptor has the standard name of its folder, the
    path "/" + reduced folder name, the species it was scanned for, and the
    files and time steps of its folder. *)
Theorem field_folders_described_in_order
    (argsort : list Z -> list nat) (dir : string)
    (fields : list (string * entry)) (species : string)
    (field_list out : list FolderField)
    (Hscan : scan_field_folders argsort dir fields species field_list
             = Ok out) :
  exists new,
    out = (field_list ++ new)%list /\
    Forall2 (describes argsort dir species)
      (List.filter (fun fe => isdir fe.2) fields) new.
Proof.
  revert field_list Hscan.
  induction fields as [|[field e] rest IH]; intros field_list Hscan.
  - simpl in Hscan. injection Hscan as <-. exists [].
    by rewrite app_nil_r.
  - cbn [scan_field_folders] in Hscan. cbn [List.filter snd].
    destruct (isdir e); [|by apply IH].
    destruct (_create_field _ _ _ _ _) as [f|] eqn:Hf; [|done].
    cbn [result_bind] in Hscan.
    destruct (IH _ Hscan) as (new & -> & Hnew).
    exists (f :: new). split; [by rewrite <- List.app_assoc|].
    constructor; [by apply create_field_describes | done].
Qed.

(** *** Files and time steps *)

Lemma get_files_inv argsort path folder files steps :
  _get_files_and_timesteps argsort path folder = Ok (files, steps) ->
  exists children ts,
    folder = Folder children /\
    parse_time_steps (select_h5 path (map fst children)) = Ok ts /\
    take_indices ts (argsort ts) = Ok steps /\
    take_indices (select_h5 path (map fst children)) (argsort ts) = Ok files.
Proof.
  unfold _get_files_and_timesteps. destruct folder as [|children]; [done|].
  cbn [listdir result_bind].
  destruct (parse_time_steps _) as [ts|] eqn:Hts; [|done].
  cbn [result_bind].
  destruct (take_indices ts _) as [steps'|] eqn:Hsteps; [|done].
  cbn [result_bind].
  destruct (take_indices (select_h5 _ _) _) as [files'|] eqn:Hfiles; [|done].
  cbn [result_bind]. intros [= <- <-]. by exists children, ts.
Qed.

Lemma take_indices_lookup {A} (a : list A) idx xs :
  take_indices a idx = Ok xs -> Forall2 (fun i x => a !! i = Some x) idx xs.
Proof.
  revert xs. induction idx as [|i idx IH]; intros xs H; simpl in H.
  - injection H as <-. constructor.
  - destruct (a !! i) as [x|] eqn:Hx; [|done].
    destruct (take_indices a idx) as [xs'|]; [|done].
    simpl in H. injection H as <-. constructor; [done | by apply IH].
Qed.

(** X4.  A folder without an entry that ends in ".h5" has no files and no
    time steps; it is not an error.  ([argsort] has to return the empty
    index array for the empty array.) *)
Theorem folder_without_h5_is_empty
    (argsort : list Z -> list nat) (path : string)
    (children : list (string * entry))
    (Hargsort : argsort_ok [] (argsort []))
    (Hnone : Forall (fun fe => endswith fe.1 ".h5" = false) children) :
  _get_files_and_timesteps argsort path (Folder children) = Ok ([], []).
Proof.
  assert (select_h5 path (map fst children) = []) as Hsel.
  { unfold select_h5.
    induction Hnone as [|fe rest Hfe _ IH]; [done|].
    cbn [map List.filter]. by rewrite Hfe. }
  destruct Hargsort as [Hperm _]. simpl in Hperm.
  symmetry in Hperm. apply Permutation_nil in Hperm.
  unfold _get_files_and_timesteps. cbn [listdir result_bind].
  rewrite Hsel. cbn [parse_time_steps result_bind]. by rewrite Hperm.
Qed.

(** X5.  Whatever [argsort] returns, a result of [_get_files_and_timesteps]
    is aligned index by index: the i-th time step is [int] of the slice
    [[-9:-3]] of the i-th file, the two sequences are equally long, and every
    returned file is one of the selected ".h5" paths. *)
Theorem files_and_time_steps_aligned
    (argsort : list Z -> list nat) (path : string) (folder : entry)
    (files : list string) (steps : list Z)
    (Hrun : _get_files_and_timesteps argsort path folder = Ok (files, steps)) :
  Forall2 (fun file t => PyStr.int (slice_from_end 9 3 file) = Some t)
    files steps /\
  length files = length steps /\
  exists children,
    folder = Folder children /\
    forall file, In file files ->
      exists name, In name (map fst children) /\
        endswith name ".h5" = true /\ file = path_join path name.
Proof.
  destruct (get_files_inv _ _ _ _ _ Hrun)
    as (children & ts & -> & Hparse & Hsteps & Hfiles).
  apply parse_time_steps_ok in Hparse.
  apply take_indices_lookup in Hsteps, Hfiles.
  assert (Forall2 (fun file t =>
            PyStr.int (slice_from_end 9 3 file) = Some t) files steps) as Hal.
  { clear Hrun. revert steps Hsteps.
    induction Hfiles as [|i file idx files Hi _ IH]; intros steps Hsteps.
    - inversion Hsteps. constructor.
    - inversion Hsteps as [|? t ? steps' Ht Hrest]; subst.
      constructor; [|by apply IH].
      by apply (Forall2_lookup_lr _ _ _ _ _ _ Hparse Hi Ht). }
  split; [done|]. split; [by eapply Forall2_length|].
  exists children. split; [done|]. intros file Hin.
  apply select_h5_spec.
  apply list_elem_of_In in Hin.
  destruct (list_elem_of_lookup_1 _ _ Hin) as [j Hj].
  destruct (Forall2_lookup_r _ _ _ _ _ Hfiles Hj) as (i & _ & Hi).
  apply list_elem_of_In. by eapply list_elem_of_lookup_2.
Qed.

(** *** The range of a time step *)

Lemma length_substring_le n m s : (String.length (substring n m s) <= m)%nat.
Proof.
  revert n m. induction s as [|c s IH]; intros [|n] [|m]; simpl; try lia.
  - specialize (IH 0%nat m). lia.
  - apply IH.
  - apply IH.
Qed.

Lemma length_list_ascii s :
  length (list_ascii_of_string s) = String.length s.
Proof. induction s as [|c s IH]; simpl; [done | by rewrite IH]. Qed.

Lemma lstrip_length l : (length (lstrip l) <= length l)%nat.
Proof.
  induction l as [|c l IH]; simpl; [done|].
  destruct (is_space c); simpl; lia.
Qed.

Lemma strip_length l : (length (strip l) <= length l)%nat.
Proof.
  unfold strip. rewrite length_rev.
  etransitivity; [apply lstrip_length|]. rewrite length_rev.
  apply lstrip_length.
Qed.

Lemma digit_val_range c : is_digit c = true -> 0 <= digit_val c <= 9.
Proof.
  unfold is_digit, digit_val.
  intros [H1%Nat.leb_le H2%Nat.leb_le]%andb_true_iff. lia.
Qed.

(** The digits read so far are the leading digits of the result. *)
Lemma int_digits_range acc after_digit l v :
  0 <= acc ->
  int_digits acc after_digit l = Some v ->
  acc <= v < (acc + 1) * 10 ^ Z.of_nat (length l).
Proof.
  revert acc after_digit. induction l as [|c l IH]; intros acc b Hacc H.
  - simpl in H. destruct b; [|done]. injection H as <-. simpl. lia.
  - cbn [int_digits] in H. cbn [length].
    rewrite Nat2Z.inj_succ, Z.pow_succ_r by lia.
    assert (0 < 10 ^ Z.of_nat (length l)) by (apply Z.pow_pos_nonneg; lia).
    destruct (is_digit c) eqn:Hc.
    + pose proof (digit_val_range c Hc).
      apply IH in H; [|lia]. nia.
    + destruct (Ascii.eqb c "_"); [|done]. destruct b; [|done].
      apply IH in H; [|lia]. nia.
Qed.

Lemma int_range s v :
  PyStr.int s = Some v ->
  - 10 ^ Z.of_nat (String.length s - 1) < v < 10 ^ Z.of_nat (String.length s).
Proof.
  unfold PyStr.int.
  pose proof (strip_length (list_ascii_of_string s)) as Hlen.
  rewrite length_list_ascii in Hlen.
  destruct (strip _) as [|c l]; [done|]. cbn [length] in Hlen.
  assert (10 ^ Z.of_nat (length l) <= 10 ^ Z.of_nat (String.length s - 1))
    by (apply Z.pow_le_mono_r; lia).
  assert (10 ^ Z.of_nat (S (length l)) <= 10 ^ Z.of_nat (String.length s))
    by (apply Z.pow_le_mono_r; lia).
  assert (0 < 10 ^ Z.of_nat (length l)) by (apply Z.pow_pos_nonneg; lia).
  assert (10 ^ Z.of_nat (length l) <= 10 ^ Z.of_nat (S (length l)))
    by (apply Z.pow_le_mono_r; lia).
  destruct (Ascii.eqb c "-").
  - destruct (int_digits 0 false l) as [w|] eqn:Hw; [|done].
    intros [= <-]. apply int_digits_range in Hw; lia.
  - destruct (Ascii.eqb c "+").
    + intros Hw. apply int_digits_range in Hw; lia.
    + intros Hw. apply int_digits_range in Hw; [|lia].
      cbn [length] in Hw. lia.
Qed.

(** X6.  A time step that parses comes from a token of at most six
    characters, so it lies between -99999 and 999999. *)
Theorem parsed_time_step_range (file : string) (t : Z)
    (Hparse : parse_time_step file = Ok t) :
  (String.length (slice_from_end 9 3 file) <= 6)%nat /\
  -99999 <= t <= 999999.
Proof.
  assert (String.length (slice_from_end 9 3 file) <= 6)%nat as Hlen.
  { unfold slice_from_end. etransitivity; [apply length_substring_le|]. lia. }
  split; [done|].
  unfold parse_time_step in Hparse.
  destruct (PyStr.int _) as [v|] eqn:Hv; [|done]. injection Hparse as ->.
  apply int_range in Hv.
  assert (10 ^ Z.of_nat (String.length (slice_from_end 9 3 file)) <= 10 ^ 6)
    by (apply Z.pow_le_mono_r; lia).
  assert (10 ^ Z.of_nat (String.length (slice_from_end 9 3 file) - 1)
          <= 10 ^ 5) by (apply Z.pow_le_mono_r; lia).
  lia.
Qed.

(** *** Ties *)

Lemma map_inj_in_range (f : nat -> Z) (n : nat) (l1 l2 : list nat) :
  (forall i j, (i < n)%nat -> (j < n)%nat -> f i = f j -> i = j) ->
  Forall (fun i => (i < n)%nat) l1 -> Forall (fun i => (i < n)%nat) l2 ->
  map f l1 = map f l2 -> l1 = l2.
Proof.
  intros Hinj H1. revert l2.
  induction H1 as [|i l1 Hi _ IH]; intros [|j l2] H2 Heq; try done.
  apply Forall_cons in H2 as [Hj H2]. simpl in Heq.
  injection Heq as Hij Heq. f_equal; [by apply Hinj | by apply IH].
Qed.

(** X7.  The returned time steps do not depend on how [argsort] orders equal
    values: two index sorts that both meet the promise of [numpy.argsort]
    give the same time steps, and, when the time steps are distinct, the
    same files. *)
Theorem time_steps_independent_of_ties
    (argsort1 argsort2 : list Z -> list nat)
    (Hsort1 : forall a, argsort_ok a (argsort1 a))
    (Hsort2 : forall a, argsort_ok a (argsort2 a))
    (path : string) (folder : entry)
    (files1 files2 : list string) (steps1 steps2 : list Z)
    (Hrun1 : _get_files_and_timesteps argsort1 path folder
             = Ok (files1, steps1))
    (Hrun2 : _get_files_and_timesteps argsort2 path folder
             = Ok (files2, steps2)) :
  steps1 = steps2 /\ (List.NoDup steps1 -> files1 = files2).
Proof.
  destruct (get_files_inv _ _ _ _ _ Hrun1)
    as (children & ts & -> & Hparse & Hsteps1 & Hfiles1).
  destruct (get_files_inv _ _ _ _ _ Hrun2)
    as (children' & ts' & [= <-] & Hparse' & Hsteps2 & Hfiles2).
  rewrite Hparse in Hparse'. injection Hparse' as <-.
  destruct (Hsort1 ts) as [Hp1 Hs1], (Hsort2 ts) as [Hp2 Hs2].
  pose proof (perm_seq_in_range _ _ Hp1) as Hr1.
  pose proof (perm_seq_in_range _ _ Hp2) as Hr2.
  rewrite (take_indices_map ts _ 0 Hr1) in Hsteps1.
  rewrite (take_indices_map ts _ 0 Hr2) in Hsteps2.
  injection Hsteps1 as <-. injection Hsteps2 as <-.
  destruct (take_indices_perm ts _ Hp1) as (xs1 & Hx1 & Hperm1).
  destruct (take_indices_perm ts _ Hp2) as (xs2 & Hx2 & Hperm2).
  rewrite (take_indices_map ts _ 0 Hr1) in Hx1. injection Hx1 as <-.
  rewrite (take_indices_map ts _ 0 Hr2) in Hx2. injection Hx2 as <-.
  assert (map (fun i => nth i ts 0) (argsort1 ts)
          = map (fun i => nth i ts 0) (argsort2 ts)) as Hsteps.
  { apply (Sorted_unique Z.le); [exact Hs1 | exact Hs2 |].
    by rewrite Hperm1, Hperm2. }
  split; [done|]. intros Hnd.
  assert (List.NoDup ts) as Hts by exact (Permutation_NoDup Hperm1 Hnd).
  assert (argsort1 ts = argsort2 ts) as Hidx.
  { apply (map_inj_in_range (fun i => nth i ts 0) (length ts)); try done.
    intros i j Hi Hj Hij. by apply (proj1 (NoDup_nth ts 0) Hts). }
  rewrite Hidx in Hfiles1. congruence.
Qed.

End ScannerExtras.


(** ** The further properties on concrete inputs *)

Module ExtraExamples.
Import PyStr OsirisFolderScanner ScannerProps ScannerExtras.
Import ParticleSpecies SpeciesExamples.

Lemma category_must_be_directory_witness :
  Forall (fun fe : string * entry => is_category fe.1 = false)
    [("MS", Folder [])] /\
  is_category "FLD" = true /\
  get_list_of_fields stable_argsort "sim"
    (Folder [("MS", Folder []); ("FLD", File); ("DENSITY", Folder [])])
  = Raise (NotADirectoryError "sim/FLD").
Proof.
  assert (Forall (fun fe : string * entry => is_category fe.1 = false)
            [("MS", Folder [])]) as Hbefore by (repeat constructor).
  split; [exact Hbefore|]. split; [reflexivity|].
  exact (category_must_be_directory stable_argsort "sim" [("MS", Folder [])]
           [("DENSITY", Folder [])] "FLD" Hbefore eq_refl).
Defined.

Definition fld_listing : list (string * entry) :=
  [("e1-savg", Folder [("e1-savg-000010.h5", File);
                       ("e1-savg-000000.h5", File)]);
   ("notes.txt", File);
   ("b3", Folder [])].

Lemma field_folders_described_in_order_witness :
  exists out new,
    scan_field_folders stable_argsort "sim/FLD" fld_listing "" [] = Ok out /\
    out = new /\ length new = 2%nat /\
    Forall2 (describes stable_argsort "sim/FLD" "")
      [("e1-savg", Folder [("e1-savg-000010.h5", File);
                           ("e1-savg-000000.h5", File)]);
       ("b3", Folder [])] new.
Proof.
  assert (exists out,
            scan_field_folders stable_argsort "sim/FLD" fld_listing "" []
            = Ok out) as [out Hscan] by (eexists; reflexivity).
  destruct (field_folders_described_in_order stable_argsort "sim/FLD"
              fld_listing "" [] out Hscan) as (new & Hout & Hnew).
  exists out, new. split; [exact Hscan|]. split; [exact Hout|].
  split; [|exact Hnew]. symmetry. exact (Forall2_length _ _ _ Hnew).
Defined.

Lemma folder_without_h5_is_empty_witness :
  argsort_ok [] (stable_argsort []) /\
  Forall (fun fe : string * entry => endswith fe.1 ".h5" = false)
    [("readme.txt", File); ("h5", File)] /\
  _get_files_and_timesteps stable_argsort "sim/FLD/e1"
    (Folder [("readme.txt", File); ("h5", File)])
  = Ok ([], []).
Proof.
  assert (Forall (fun fe : string * entry => endswith fe.1 ".h5" = false)
            [("readme.txt", File); ("h5", File)]) as Hnone
    by (repeat constructor).
  split; [apply stable_argsort_ok|]. split; [exact Hnone|].
  exact (folder_without_h5_is_empty stable_argsort "sim/FLD/e1" _
           (stable_argsort_ok []) Hnone).
Defined.

Definition tie_folder : entry :=
  Folder [("a_000100.h5", File); ("b_000100.h5", File);
          ("c_000007.h5", File)].

Definition tie_files_reversed : list string :=
  ["FLD/e1/c_000007.h5"; "FLD/e1/b_000100.h5"; "FLD/e1/a_000100.h5"].

Definition tie_files_stable : list string :=
  ["FLD/e1/c_000007.h5"; "FLD/e1/a_000100.h5"; "FLD/e1/b_000100.h5"].

Lemma files_and_time_steps_aligned_witness :
  _get_files_and_timesteps reversing_argsort "FLD/e1" tie_folder
  = Ok (tie_files_reversed, [7; 100; 100]) /\
  Forall2 (fun file t => PyStr.int (slice_from_end 9 3 file) = Some t)
    tie_files_reversed [7; 100; 100].
Proof.
  split; [reflexivity|].
  exact (proj1 (files_and_time_steps_aligned reversing_argsort "FLD/e1"
                  tie_folder tie_files_reversed [7; 100; 100] eq_refl)).
Defined.

Lemma parsed_time_step_range_witness :
  parse_time_step "FLD/e1/e1-000120.h5" = Ok 120 /\
  -99999 <= 120 <= 999999.
Proof.
  split; [reflexivity|].
  exact (proj2 (parsed_time_step_range "FLD/e1/e1-000120.h5" 120 eq_refl)).
Defined.

Lemma time_steps_independent_of_ties_witness :
  (forall a, argsort_ok a (stable_argsort a)) /\
  (forall a, argsort_ok a (reversing_argsort a)) /\
  _get_files_and_timesteps stable_argsort "FLD/e1" tie_folder
  = Ok (tie_files_stable, [7; 100; 100]) /\
  _get_files_and_timesteps reversing_argsort "FLD/e1" tie_folder
  = Ok (tie_files_reversed, [7; 100; 100]) /\
  ([7; 100; 100] = [7; 100; 100] /\
   (List.NoDup [7; 100; 100] -> tie_files_stable = tie_files_reversed)).
Proof.
  split; [exact stable_argsort_ok|]. split; [exact reversing_argsort_ok|].
  split; [reflexivity|]. split; [reflexivity|].
  exact (time_steps_independent_of_ties stable_argsort reversing_argsort
           stable_argsort_ok reversing_argsort_ok "FLD/e1" tie_folder
           tie_files_stable tie_files_reversed [7; 100; 100] [7; 100; 100]
           eq_refl eq_refl).
Defined.


Lemma more_components_keep_derived_witness :
  (forall c : string, c ∈ ["px"; "pz"] -> c ∈ ["py"; "pz"; "px"]) /\
  sublist
    (_determine_available_derived_components arr nat table ["px"; "pz"])
    (_determine_available_derived_components arr nat table
       ["py"; "pz"; "px"]) /\
  _determine_available_derived_components arr nat table ["px"; "pz"]
  = ["x_prime"] /\
  _determine_available_derived_components arr nat table ["py"; "pz"; "px"]
  = ["x_prime"; "y_prime"].
Proof.
  assert (forall c : string, c ∈ ["px"; "pz"] -> c ∈ ["py"; "pz"; "px"])
    as Hsub.
  { intros c. rewrite !elem_of_cons, !elem_of_nil. tauto. }
  split; [exact Hsub|].
  split; [|split; reflexivity].
  exact (proj1 (more_components_keep_derived arr nat table ["px"; "pz"]
                  ["py"; "pz"; "px"] Hsub)).
Defined.

(** A reader that finds nothing in the file. *)
Definition reader_nothing (file_path species : string)
    (components_list : list string)
  : external nat (gmap string (arr * loc)) :=
  fun o => (Ok ∅, o).

(** With this reader the recipe of 'x_prime' does not find 'px' and raises
    [KeyError]; [get_data] passes the exception on. *)
Lemma get_data_raises_only_witness :
  lists arr nat st1 !! components_in_file electrons = Some in_file0 /\
  lists arr nat st1 !! derived_components electrons
  = Some (_determine_available_derived_components arr nat table in_file0) /\
  exists st',
    get_data arr nat table reader_nothing converter electrons 20 ["x_prime"]
      None None st1
    = (Raise (KeyError "px"), st') /\
    exists evs ev,
      log arr nat st' = (log arr nat st1 ++ evs ++ [ev])%list /\
      outcome_raised arr ev = Some (KeyError "px").
Proof.
  do 2 (split; [reflexivity|]).
  set (st' := (get_data arr nat table reader_nothing converter electrons 20
                 ["x_prime"] None None st1).2).
  assert (get_data arr nat table reader_nothing converter electrons 20
            ["x_prime"] None None st1 = (Raise (KeyError "px"), st'))
    as Hrun by (vm_compute; reflexivity).
  exists st'. split; [exact Hrun|].
  destruct (get_data_raises_only arr nat table reader_nothing converter
              electrons 20 ["x_prime"] None None st1 st' in_file0 _
              eq_refl eq_refl Hrun)
    as [[msg Hx]|[Hx|[[key Hx]|[Hx|Hpassed]]]]; try discriminate Hx.
  - exists [ReadParticleData arr "f20" "electrons" [] (Ok ∅);
            ReadParticleData arr "f20" "electrons" ["px"; "pz"] (Ok ∅);
            ConvertUnits arr ∅ {[ "px" := "SI"; "pz" := "SI" ]} None (Ok ∅)],
      (Recipe arr "x_prime" ∅ (Raise (KeyError "px"))).
    split; vm_compute; reflexivity.
  - exact Hpassed.
Defined.

(** A species whose file has the component 'tag' twice. *)
Definition st_tags : state arr nat :=
  mk_state arr nat
    (<[1%nat := ["x_prime"]]> {[ 0%nat := ["tag"; "x"; "tag"] ]})
    no_objects [].

Lemma listing_removes_first_tag_only_witness :
  lists arr nat st_tags !! components_in_file electrons
  = Some ["tag"; "x"; "tag"] /\
  lists arr nat st_tags !! derived_components electrons = Some ["x_prime"] /\
  exists new_list shown st',
    get_list_of_available_components arr nat electrons false st_tags
    = (Ok new_list, st') /\
    lists arr nat st' !! new_list = Some shown /\
    count_occ String.string_dec shown "tag" = 1%nat.
Proof.
  do 2 (split; [reflexivity|]).
  destruct (listing_removes_first_tag_only arr nat electrons st_tags
              ["tag"; "x"; "tag"] ["x_prime"] eq_refl eq_refl)
    as (new_list & shown & st' & Hrun & Hshown & _ & _ & Htag).
  exists new_list, shown, st'. split; [exact Hrun|]. split; [exact Hshown|].
  rewrite Htag. reflexivity.
Defined.

Lemma units_follow_their_components_witness :
  lists arr nat st1 !! components_in_file electrons = Some in_file0 /\
  Forall (fun c => available in_file0 ["x_prime"] c = true)
    ["x"; "x_prime"; "x"] /\
  length ["x"; "x_prime"; "x"] = length ["um"; "mrad"; "nm"] /\
  exists parts raw_units derived_units,
    split_components arr nat electrons (Some ["um"; "mrad"; "nm"]) 0
      ["x"; "x_prime"; "x"] (mk_split [] (Some []) [] (Some [])) st1
    = (Ok parts, st1) /\
    comp_to_read_units parts = Some raw_units /\
    derived_components_units parts = Some derived_units /\
    dict_zip (comp_to_read parts) raw_units !! "x" = Some "nm" /\
    dict_zip (derived_to_compute parts) derived_units !! "x_prime"
    = Some "mrad".
Proof.
  assert (Forall (fun c => available in_file0 ["x_prime"] c = true)
            ["x"; "x_prime"; "x"]) as Hall by (repeat constructor).
  split; [reflexivity|]. split; [exact Hall|]. split; [reflexivity|].
  destruct (units_follow_their_components arr nat electrons
              ["x"; "x_prime"; "x"] ["um"; "mrad"; "nm"] st1 in_file0
              ["x_prime"] eq_refl eq_refl Hall eq_refl)
    as (parts & ru & du & Hrun & Hru & Hdu & _ & _ & Hunit).
  exists parts, ru, du. do 3 (split; [assumption|]). split.
  - apply (Hunit 2%nat "x" "nm" eq_refl eq_refl).
    intros [|[|[|j]]] Hj; simpl; try lia; discriminate.
  - apply (Hunit 1%nat "x_prime" "mrad" eq_refl eq_refl).
    intros [|[|[|j]]] Hj; simpl; try lia; discriminate.
Defined.

(** A species with three time steps and one file. *)
Definition electrons_one_file : species :=
  mk_species "electrons" 0%nat 1%nat [10; 20; 30] ["f10"].

Lemma time_step_without_file_witness :
  timesteps electrons_one_file !! 1%nat = Some 20 /\
  (length (species_files electrons_one_file) <= 1)%nat /\
  get_data arr nat table reader converter electrons_one_file 20 ["x"] None
    None st1
  = (Raise IndexError, st1).
Proof.
  split; [reflexivity|]. split; [simpl; lia|].
  apply (time_step_without_file arr nat table reader converter
           electrons_one_file 20 ["x"] None None st1 in_file0 ["x_prime"]
           1%nat eq_refl eq_refl).
  - repeat constructor.
  - intros us [=].
  - reflexivity.
  - intros [|j] Hj; simpl; [discriminate | lia].
  - simpl. lia.
Defined.





Lemma derived_missing_first_requirement_witness :
  ("x_prime" ∉ in_file0) /\
  "x_prime" ∈ ["x_prime"] /\
  get_definition arr nat table "x_prime" = Ok x_prime /\
  (∅ : gmap string (arr * loc)) !! "px" = None /\
  get_data arr nat table reader_nothing converter electrons 20 ["x_prime"]
    None None st1
  = (Raise (KeyError "px"),
     mk_state arr nat (lists arr nat st1) no_objects
       [ReadParticleData arr "f20" "electrons" [] (Ok ∅);
        ReadParticleData arr "f20" "electrons" ["px"; "pz"] (Ok ∅);
        ConvertUnits arr ∅ {[ "px" := "SI"; "pz" := "SI" ]} None (Ok ∅);
        Recipe arr "x_prime" ∅ (Raise (KeyError "px"))]).
Proof.
  assert ("x_prime" ∉ in_file0) as Hnot_raw.
  { unfold in_file0. rewrite !elem_of_cons, elem_of_nil.
    intros H. repeat (destruct H as [H|H]; [discriminate|]). done. }
  assert ("x_prime" ∈ ["x_prime"]) as Hn by apply list_elem_of_here.
  split; [exact Hnot_raw|]. split; [exact Hn|].
  split; [reflexivity|]. split; [reflexivity|].
  exact (derived_missing_first_requirement arr nat table reader_nothing
           converter electrons 20 None st1 in_file0 ["x_prime"] "f20"
           "x_prime" x_prime "px" ["pz"] ∅ ∅ ∅ no_objects no_objects
           no_objects eq_refl eq_refl Hnot_raw Hn eq_refl eq_refl eq_refl
           eq_refl eq_refl eq_refl eq_refl).
Defined.

Lemma result_keys_are_requested_witness :
  _get_file_path electrons 20 = Ok "f20" /\
  (forall read o1,
     reader "f20" "electrons" (raw_part in_file0 ["x"; "x_prime"])
       (objs arr nat st1) = (Ok read, o1) ->
     dom read = list_to_set (raw_part in_file0 ["x"; "x_prime"])) /\
  exists out st',
    get_data arr nat table reader converter electrons 20 ["x"; "x_prime"]
      None None st1
    = (Ok out, st') /\
    dom out = list_to_set ["x"; "x_prime"].
Proof.
  assert (forall read o1,
            reader "f20" "electrons" (raw_part in_file0 ["x"; "x_prime"])
              (objs arr nat st1) = (Ok read, o1) ->
            dom read = list_to_set (raw_part in_file0 ["x"; "x_prime"]))
    as Hreader.
  { intros read o1 [= <- _].
    apply (bool_decide_unpack _). vm_compute. exact I. }
  split; [reflexivity|]. split; [exact Hreader|].
  assert (exists out st',
            get_data arr nat table reader converter electrons 20
              ["x"; "x_prime"] None None st1 = (Ok out, st'))
    as (out & st' & Hrun) by (eexists _, _; vm_compute; reflexivity).
  exists out, st'. split; [exact Hrun|].
  exact (result_keys_are_requested arr nat table reader converter electrons
           20 ["x"; "x_prime"] None st1 st' out in_file0 ["x_prime"] "f20"
           eq_refl eq_refl eq_refl Hreader Hrun).
Defined.

Lemma species_shares_components_list_witness :
  lists arr nat st0 !! 0%nat = Some in_file0 /\
  "charge" ∈ ["charge"] /\
  list_index 20 [10; 20; 30] = Some 1%nat /\
  exists self st1',
    __init__ arr nat table "electrons" 0%nat [10; 20; 30]
      ["f10"; "f20"; "f30"] st0
    = (Ok self, st1') /\
    let st2 :=
      mk_state arr nat (<[0%nat := ["charge"]]> (lists arr nat st1'))
        (objs arr nat st1') (log arr nat st1') in
    lists arr nat st2 !! derived_components self = Some ["x_prime"] /\
    get_data arr nat table reader converter self 20 ["charge"] None None st2
    = let r := reader "f20" "electrons" ["charge"] (objs arr nat st2) in
      (r.1,
       mk_state arr nat (lists arr nat st2) r.2
         (log arr nat st2
            ++ [ReadParticleData arr "f20" "electrons" ["charge"] r.1])).
Proof.
  assert ("charge" ∈ ["charge"]) as Hc by apply list_elem_of_here.
  split; [reflexivity|]. split; [exact Hc|]. split; [reflexivity|].
  destruct (species_shares_components_list arr nat table reader converter
              "electrons" 0%nat [10; 20; 30] ["f10"; "f20"; "f30"] st0
              in_file0 ["charge"] 20 "f20" "charge" None eq_refl Hc 1%nat
              eq_refl eq_refl)
    as (self & st1' & Hinit & _ & Hder & Hget).
  exists self, st1'. split; [exact Hinit|]. split; [exact Hder | exact Hget].
Defined.

End ExtraExamples.
